(** * bocoel: the bounded index contract, the embedder wrapper and the
      Ax service optimizer loop

    A shallow embedding of
      - [bocoel/corpora/indices/interfaces/indices.py]   ([Index]),
      - [bocoel/corpora/embedders/interfaces.py]         ([Embedder]),
      - [bocoel/core/optim/ax/optim.py]                  ([AxServiceOptimizer]).

    Python exceptions are values of [exn]; a computation that may raise
    returns a [pyresult].  Calls that leave the modelled classes (the
    abstract [_search] and [_encode] methods, the scoring function, the Ax
    client, the plotting routines) are recorded as [event]s, so that "is
    never invoked" is a statement about the recorded calls.

    Array entries are modelled as rationals: the finite values of a float
    array, compared as numbers. *)

From Stdlib Require Import QArith.
From stdpp Require Import base strings list gmap pretty.

Local Open Scope Z_scope.

(** ** Exceptions and results *)

Inductive exn : Type :=
| ValueError (msg : string)
| IndexError (msg : string)
| KeyError (key : string)
| TerminationViolation
| Foreign (tag : string).

Inductive pyresult (A : Type) : Type :=
| Ok (a : A)
| Raise (e : exn).

Arguments Ok {A} a.
Arguments Raise {A} e.

(** ** Arrays

    An [NDArray] is its shape and its entries in row-major order;
    [ndim] is the length of the shape.  Matrices that are only ever
    indexed by row ([embeddings], [bounds]) are kept as lists of rows. *)

Record NDArray : Type := mkArray {
  shape : list nat;
  data : list Q;
}.

Definition ndim (a : NDArray) : nat := length (shape a).

Definition size_of_shape (sh : list nat) : nat := foldr Nat.mul 1%nat sh.

(** The invariant every numpy array has: as many entries as its shape says. *)
Definition array_wf (a : NDArray) : Prop :=
  length (data a) = size_of_shape (shape a).

(** The 1-D array holding [xs]. *)
Definition vector (xs : list Q) : NDArray :=
  {| shape := [length xs]; data := xs |}.

(** [shape[0]]: an [IndexError] on a 0-d array. *)
Definition shape_first (a : NDArray) : pyresult nat :=
  match shape a with
  | d :: _ => Ok d
  | [] => Raise (IndexError "tuple index out of range")
  end.

(** [shape[-1]]: an [IndexError] on a 0-d array. *)
Definition shape_last (a : NDArray) : pyresult nat :=
  match last (shape a) with
  | Some d => Ok d
  | None => Raise (IndexError "tuple index out of range")
  end.

Definition broadcast_error (m n : nat) : exn :=
  ValueError ("operands could not be broadcast together with shapes ("
              +:+ pretty m +:+ ",) (" +:+ pretty n +:+ ",) ").

(** Elementwise comparison of two 1-D arrays with numpy's broadcasting:
    equal lengths are compared pointwise, a length-1 operand is stretched,
    any other pair of lengths raises. *)
Definition np_compare (cmp : Q → Q → bool) (xs ys : list Q)
  : pyresult (list bool) :=
  if decide (length xs = length ys) then Ok (zip_with cmp xs ys)
  else match xs, ys with
       | [x], _ => Ok (map (cmp x) ys)
       | _, [y] => Ok (map (λ x, cmp x y) xs)
       | _, _ => Raise (broadcast_error (length xs) (length ys))
       end.

(** [query >= other] and [query <= other]. *)
Definition np_ge : list Q → list Q → pyresult (list bool) :=
  np_compare (λ x y, Qle_bool y x).
Definition np_le : list Q → list Q → pyresult (list bool) :=
  np_compare Qle_bool.

(** Python's builtin [all] over a 1-D boolean array. *)
Definition py_all (bs : list bool) : bool := forallb id bs.

Definition index_error (i : Z) (n : nat) : exn :=
  IndexError ("index " +:+ pretty i +:+ " is out of bounds for axis 0 with size "
              +:+ pretty n).

(** [rows[i]] for one integer: negative indices count from the end. *)
Definition np_row {A} (rows : list A) (i : Z) : pyresult A :=
  let n := Z.of_nat (length rows) in
  let j := if i <? 0 then i + n else i in
  match (if (0 <=? j) && (j <? n) then rows !! Z.to_nat j else None) with
  | Some r => Ok r
  | None => Raise (index_error i (length rows))
  end.

(** [rows[indices]] for a 1-D integer array: the gathered rows, in the
    order of [indices]; the first index out of range raises. *)
Fixpoint np_take {A} (rows : list A) (indices : list Z) : pyresult (list A) :=
  match indices with
  | [] => Ok []
  | i :: rest =>
      match np_row rows i with
      | Raise e => Raise e
      | Ok r => match np_take rows rest with
                | Raise e => Raise e
                | Ok rs => Ok (r :: rs)
                end
      end
  end.

(** ** Search results ([.results], known here through its uses) *)

Record InternalSearchResult : Type := {
  isr_distances : list Q;
  isr_indices : list Z;
}.

Record SearchResult : Type := {
  query : NDArray;
  vectors : list (list Q);
  distances : list Q;
  indices : list Z;
}.

(** ** The [Index] protocol *)

Record Index : Type := {
  embeddings : list (list Q);
  (** shape [[dims, 2]]: one row [(lower, upper)] per dimension *)
  bounds : list (Q * Q);
  dims : Z;
  _search : NDArray → Z → pyresult InternalSearchResult;
}.

(** [bounds[:, 0]] and [bounds[:, 1]] *)
Definition lower (self : Index) : list Q := map fst (bounds self).
Definition upper (self : Index) : list Q := map snd (bounds self).

(** What the docstring of [bounds] promises about its shape. *)
Definition index_wf (self : Index) : Prop :=
  Z.of_nat (length (bounds self)) = dims self.

(** ** Recorded calls *)

Inductive renderer : Type :=
| _render_interactive
| _render_static
| _render_tradeoff
| _render_cross_validate
| _render_slice
| _render_tile.

Inductive event : Type :=
| EvSearch (q : NDArray) (k : Z)
| EvScore (r : SearchResult)
| EvGetNextTrial
| EvCompleteTrial (trial_index : Z) (key : string) (value : Q)
| EvRender (f : renderer)
| EvEncode (texts : list string).

(** ** Computations: mutable state [S], an outcome, the calls made *)

Definition Eff (S A : Type) : Type := S → pyresult A * S * list event.

Definition eff_ret {S A} (a : A) : Eff S A := λ s, (Ok a, s, []).

Definition eff_bind {S A B} (f : A → Eff S B) (m : Eff S A) : Eff S B :=
  λ s, match m s with
       | (Ok a, s1, t1) =>
           match f a s1 with (r, s2, t2) => (r, s2, t1 ++ t2) end
       | (Raise e, s1, t1) => (Raise e, s1, t1)
       end.

#[export] Instance Eff_ret {S} : MRet (Eff S) := @eff_ret S.
#[export] Instance Eff_bind {S} : MBind (Eff S) := @eff_bind S.

Definition raise {S A} (e : exn) : Eff S A := λ s, (Raise e, s, []).

(** A value or an exception obtained without touching the state. *)
Definition lift {S A} (r : pyresult A) : Eff S A := λ s, (r, s, []).

(** A call to a collaborator that has no state of its own. *)
Definition call {S A} (ev : event) (r : pyresult A) : Eff S A :=
  λ s, (r, s, [ev]).

Definition outcome {S A} (x : pyresult A * S * list event) : pyresult A := x.1.1.
Definition final {S A} (x : pyresult A * S * list event) : S := x.1.2.
Definition calls {S A} (x : pyresult A * S * list event) : list event := x.2.

(** ** [Index.in_range] and [Index.search] *)

(** [all(query >= self.lower) and all(query <= self.upper)], on the entries
    of a 1-D query (the rank at which [search] calls it).  [and] does not
    evaluate its right operand when the left one is false. *)
Definition in_range (self : Index) (q : list Q) : pyresult bool :=
  match np_ge q (lower self) with
  | Raise e => Raise e
  | Ok ge =>
      if py_all ge then
        match np_le q (upper self) with
        | Raise e => Raise e
        | Ok le => Ok (py_all le)
        end
      else Ok false
  end.

Definition shape_error (nd : nat) : exn :=
  ValueError ("Expected query to be a 1D vector, got a vector of dim "
              +:+ pretty nd +:+ ".").

Definition dimension_error (d : Z) (dim : nat) : exn :=
  ValueError ("Expected query to have dimension " +:+ pretty d
              +:+ ", got " +:+ pretty dim).

Definition bounds_message : string :=
  "Query is out of bounds. Call index.lower and index.upper for the boundary.".

Definition bounds_error : exn := ValueError bounds_message.

Definition k_error (k : Z) : exn :=
  ValueError ("Expected k to be at least 1, got " +:+ pretty k).

Definition search {S} (self : Index) (q : NDArray) (k : Z) : Eff S SearchResult :=
  if negb (ndim q =? 1)%nat then raise (shape_error (ndim q)) else
  dim ← lift (shape_first q);
  if negb (Z.of_nat dim =? dims self) then raise (dimension_error (dims self) dim) else
  inside ← lift (in_range self (data q));
  if negb inside then raise bounds_error else
  if k <? 1 then raise (k_error k) else
  result ← call (EvSearch q k) (_search self q k);
  vecs ← lift (np_take (embeddings self) (isr_indices result));
  mret {| query := q;
          vectors := vecs;
          distances := isr_distances result;
          indices := isr_indices result |}.

(** [search(query)] with the default [k = 1]. *)
Definition search_default {S} (self : Index) (q : NDArray) : Eff S SearchResult :=
  search self q 1.

(** ** Python sequences and [np.concatenate] *)

(** A slice bound brought into [0 .. n]: negative bounds count from the end. *)
Definition clamp_index (n i : Z) : Z :=
  if i <? 0 then Z.max (i + n) 0 else Z.min i n.

(** [l[start:stop]] *)
Definition py_slice {A} (l : list A) (start stop : Z) : list A :=
  let n := Z.of_nat (length l) in
  let a := clamp_index n start in
  let b := clamp_index n stop in
  take (Z.to_nat (b - a)) (drop (Z.to_nat a) l).

Fixpoint range_from (fuel : nat) (i stop step : Z) : list Z :=
  match fuel with
  | O => []
  | S fuel' =>
      if (if 0 <? step then i <? stop else stop <? i)
      then i :: range_from fuel' (i + step) stop step
      else []
  end.

(** [range(start, stop, step)] as the list it iterates over; no more than
    [|stop - start|] values lie between the two ends. *)
Definition py_range (start stop step : Z) : pyresult (list Z) :=
  if step =? 0 then Raise (ValueError "range() arg 3 must not be zero")
  else Ok (range_from (Z.to_nat (Z.abs (stop - start))) start stop step).

(** The first axis, counted from [d], on which two shapes differ. *)
Fixpoint first_mismatch (d : nat) (sh sh' : list nat) : option (nat * nat * nat) :=
  match sh, sh' with
  | x :: r, y :: r' =>
      if (x =? y)%nat then first_mismatch (S d) r r' else Some (d, x, y)
  | _, _ => None
  end.

Definition rank_mismatch_error (nd i nd' : nat) : exn :=
  ValueError ("all the input arrays must have same number of dimensions, "
              +:+ "but the array at index 0 has " +:+ pretty nd
              +:+ " dimension(s) and the array at index " +:+ pretty i
              +:+ " has " +:+ pretty nd' +:+ " dimension(s)").

Definition axis_mismatch_error (d x i y : nat) : exn :=
  ValueError ("all the input array dimensions except for the concatenation "
              +:+ "axis must match exactly, but along dimension " +:+ pretty d
              +:+ ", the array at index 0 has size " +:+ pretty x
              +:+ " and the array at index " +:+ pretty i
              +:+ " has size " +:+ pretty y).

(** The rows of the arrays after the first, added to [rows]: each array,
    in order, must have the rank [nd] and the trailing shape [tl] of the
    first one. *)
Fixpoint concatenated_rows (i nd : nat) (tl : list nat) (rows : nat)
    (rest : list NDArray) : pyresult nat :=
  match rest with
  | [] => Ok rows
  | a :: rest' =>
      if negb (ndim a =? nd)%nat then Raise (rank_mismatch_error nd i (ndim a))
      else match first_mismatch 1 tl (tail (shape a)) with
           | Some (d, x, y) => Raise (axis_mismatch_error d x i y)
           | None =>
               concatenated_rows (S i) nd tl (rows + default 0%nat (head (shape a)))
                 rest'
           end
  end.

(** [np.concatenate(arrays, axis=0)] *)
Definition np_concatenate (arrays : list NDArray) : pyresult NDArray :=
  match arrays with
  | [] => Raise (ValueError "need at least one array to concatenate")
  | a0 :: rest =>
      match shape a0 with
      | [] => Raise (ValueError "zero-dimensional arrays cannot be concatenated")
      | d0 :: tl =>
          match concatenated_rows 1 (ndim a0) tl d0 rest with
          | Raise e => Raise e
          | Ok rows =>
              Ok {| shape := rows :: tl; data := concat (map data arrays) |}
          end
      end
  end.

(** ** The [Embedder] protocol *)

Module Embedders.

Record Embedder : Type := {
  batch : Z;
  dims : Z;
  _encode : list string → pyresult NDArray;
}.

Definition encode_error (d : Z) (dim : nat) : exn :=
  ValueError ("Expected the encoded embeddings to have dimension "
              +:+ pretty d +:+ ", got " +:+ pretty dim).

Definition encode {S} (self : Embedder) (text : list string) : Eff S NDArray :=
  encoded ← call (EvEncode text) (_encode self text);
  dim ← lift (shape_last encoded);
  if negb (Z.of_nat dim =? dims self) then raise (encode_error (dims self) dim)
  else mret encoded.

(** The body of the loop of [encode_storage], for the start offsets still
    to visit; [storage] is the sequence of its rows, [storage[a:b]] the
    rows in between. *)
Fixpoint encode_batches {S Row} (self : Embedder) (storage : list Row)
    (transform : list Row → pyresult (list string)) (offsets : list Z)
  : Eff S (list NDArray) :=
  match offsets with
  | [] => mret []
  | idx :: rest =>
      texts ← lift (transform (py_slice storage idx (idx + batch self)));
      encoded ← encode self texts;
      results ← encode_batches self storage transform rest;
      mret (encoded :: results)
  end.

Definition encode_storage {S Row} (self : Embedder) (storage : list Row)
    (transform : list Row → pyresult (list string)) : Eff S NDArray :=
  offsets ← lift (py_range 0 (Z.of_nat (length storage)) (batch self));
  results ← encode_batches self storage transform offsets;
  lift (np_concatenate results).

End Embedders.

(** ** [HuggingfaceEmbedder] *)

Module HuggingfaceEmbedder.

(** The tokenizer followed by the model is [_forward]; [_transform] is the
    constructor's [transform] followed by [.cpu().numpy()]. *)
Record t (Output : Type) : Type := {
  _forward : list string → pyresult Output;
  _batch_size : Z;
  _transform : Output → pyresult NDArray;
}.

Arguments _forward {Output} _.
Arguments _batch_size {Output} _.
Arguments _transform {Output} _.

(** [__init__] with the default [batch_size]. *)
Definition default_batch_size : Z := 64.

Definition batch {Output} (self : t Output) : Z := _batch_size self.

Definition dims {Output} (self : t Output) : Z := 2.

Definition _encode {Output} (self : t Output) (texts : list string)
  : pyresult NDArray :=
  match _forward self texts with
  | Raise e => Raise e
  | Ok output => _transform self output
  end.

(** The class as an [Embedder]. *)
Definition embedder {Output} (self : t Output) : Embedders.Embedder :=
  {| Embedders.batch := batch self;
     Embedders.dims := dims self;
     Embedders._encode := _encode self |}.

End HuggingfaceEmbedder.

(** ** The remaining-steps counter *)

Module RemainingSteps.

(** Modelled from the spec: [RemainingSteps] of [bocoel.core.optim.utils]
    is used by the optimizer but its source is not part of the
    development.  The counter is an integer, [-1] meaning "never
    terminate"; [step] fails when the count is [0] and otherwise
    decrements it by one unless it is the sentinel; [done] holds exactly
    at [0]. *)
Definition t : Type := Z.

Definition new (count : Z) : t := count.

Definition step (count : t) : pyresult t :=
  if count =? 0 then Raise TerminationViolation
  else if count =? -1 then Ok count
  else Ok (count - 1).

Definition done (count : t) : bool := count =? 0.

End RemainingSteps.

(** ** The Ax service optimizer *)

(** [ax.modelbridge.generation_strategy.GenerationStep], as far as the
    optimizer reads it. *)
Record GenerationStep : Type := {
  model : string;
  num_trials : Z;
}.

(** Everything the optimizer calls that lives outside its own file: the Ax
    client and plotting routines, and the helpers of the sibling modules
    [.types] and [.utils]. *)
Class Ax : Type := {
  AxClient : Type;
  (** [AxClient(generation_strategy=GenerationStrategy(steps=gen_steps))] *)
  ax_client : list GenerationStep → AxClient;
  ParameterConfigs : Type;
  (** [types.parameter_configs] *)
  parameter_configs : Index → ParameterConfigs;
  (** [types.parameter_name_list] *)
  parameter_name_list : Z → list string;
  StepConfig : Type;
  (** [utils.generation_step] *)
  generation_step : StepConfig → GenerationStep;
  create_experiment :
    AxClient → ParameterConfigs → string → bool → pyresult () * AxClient;
  get_next_trial : AxClient → pyresult (gmap string Q * Z) * AxClient;
  complete_trial : AxClient → Z → string → Q → pyresult () * AxClient;
  Kwargs : Type;
  (** the body of the [_render_*] method selected, applied to [**kwargs] *)
  render_with : renderer → Kwargs → AxClient → pyresult () * AxClient;
}.

(** [State] of [bocoel.core.optim.interfaces]: the query, the search result
    and the scalar evaluation of one trial. *)
Record State : Type := {
  candidates : NDArray;
  result : SearchResult;
  evaluation : Q;
}.

Module AxServiceOptimizer.
Section WithAx.
Context `{Ax}.

Definition _KEY : string := "entropy".

Record t : Type := {
  _ax_client : AxClient;
  _remaining_steps : RemainingSteps.t;
  _index : Index;
  _evaluate_fn : SearchResult → pyresult Q;
}.

Definition set_ax_client (c : AxClient) (self : t) : t :=
  {| _ax_client := c;
     _remaining_steps := _remaining_steps self;
     _index := _index self;
     _evaluate_fn := _evaluate_fn self |}.

Definition set_remaining_steps (r : RemainingSteps.t) (self : t) : t :=
  {| _ax_client := _ax_client self;
     _remaining_steps := r;
     _index := _index self;
     _evaluate_fn := _evaluate_fn self |}.

(** A method call on [self._ax_client]: recorded, and the client is left
    in the state the call produced, whether it returned or raised. *)
Definition on_client {A} (ev : event)
    (f : AxClient → pyresult A * AxClient) : Eff t A :=
  λ self, let '(r, c) := f (_ax_client self) in (r, set_ax_client c self, [ev]).

(** [self._remaining_steps.step()] *)
Definition advance : Eff t () :=
  λ self, match RemainingSteps.step (_remaining_steps self) with
          | Ok r => (Ok (), set_remaining_steps r self, [])
          | Raise e => (Raise e, self, [])
          end.

(** [sum(trials)] if every count is non-negative, else [-1]. *)
Definition _terminate_step (steps : list GenerationStep) : Z :=
  let trials := map num_trials steps in
  if forallb (λ t, t >=? 0) trials then fold_left Z.add trials 0 else -1.

Definition __init__ (index : Index) (evaluate_fn : SearchResult → pyresult Q)
    (steps : list StepConfig) (minimize : bool) : pyresult t :=
  let gen_steps := map generation_step steps in
  let client := ax_client gen_steps in
  match create_experiment client (parameter_configs index) _KEY minimize with
  | (Raise e, _) => Raise e
  | (Ok _, client') =>
      Ok {| _ax_client := client';
            _remaining_steps := RemainingSteps.new (_terminate_step gen_steps);
            _index := index;
            _evaluate_fn := evaluate_fn |}
  end.

Definition terminate (self : t) : bool :=
  RemainingSteps.done (_remaining_steps self).

(** [[parameters[name] for name in names]]: a missing name is a [KeyError]. *)
Fixpoint lookup_all (parameters : gmap string Q) (names : list string)
  : pyresult (list Q) :=
  match names with
  | [] => Ok []
  | name :: rest =>
      match parameters !! name with
      | None => Raise (KeyError name)
      | Some v => match lookup_all parameters rest with
                  | Raise e => Raise e
                  | Ok vs => Ok (v :: vs)
                  end
      end
  end.

(** Modelled from the spec: [evaluate_index] of [bocoel.core.optim.utils]
    is called by [_evaluate] but its source is not part of the
    development.  It searches the index with the query (one neighbour,
    the default [k]), applies the scoring function to the search result,
    and returns the state record; nothing is caught or retried. *)
Definition evaluate_index {S} (q : NDArray) (index : Index)
    (evaluate_fn : SearchResult → pyresult Q) : Eff S State :=
  res ← search_default index q;
  score ← call (EvScore res) (evaluate_fn res);
  mret {| candidates := q; result := res; evaluation := score |}.

Definition _evaluate (parameters : gmap string Q) : Eff t State :=
  λ self,
    let index_dims := dims (_index self) in
    let names := parameter_name_list index_dims in
    (coords ← lift (lookup_all parameters names);
     evaluate_index (vector coords) (_index self) (_evaluate_fn self)) self.

Definition step : Eff t State :=
  _ ← advance;
  '(parameters, trial_index) ← on_client EvGetNextTrial get_next_trial;
  state ← _evaluate parameters;
  _ ← on_client (EvCompleteTrial trial_index _KEY (evaluation state))
        (λ c, complete_trial c trial_index _KEY (evaluation state));
  mret state.

(** The [match kind] of [render]. *)
Definition dispatch (kind : string) : pyresult renderer :=
  if String.eqb kind "interactive" then Ok _render_interactive
  else if String.eqb kind "static" then Ok _render_static
  else if String.eqb kind "tradeoff" then Ok _render_tradeoff
  else if String.eqb kind "cross_validate" || String.eqb kind "cv"
    then Ok _render_cross_validate
  else if String.eqb kind "slice" then Ok _render_slice
  else if String.eqb kind "tile" then Ok _render_tile
  else Raise (ValueError "Not supported").

Definition render (kind : string) (kwargs : Kwargs) : Eff t () :=
  func ← lift (dispatch kind);
  on_client (EvRender func) (render_with func kwargs).

(** [n] calls of [step] in a row, each of which returned. *)
Fixpoint stepped (n : nat) (self : t) : option t :=
  match n with
  | O => Some self
  | S m => match step self with
           | (Ok _, self', _) => stepped m self'
           | (Raise _, _, _) => None
           end
  end.

End WithAx.
End AxServiceOptimizer.

(** ** A concrete index and a concrete strategy

    The index of the end-to-end scenarios: the four corners of the unit
    square, bounds [[0,1]] on both axes, neighbours ranked by a flat scan
    on the squared Euclidean distance (ties keep row order).  The strategy
    proposes the same point for every trial and keeps a ledger of the
    trials it handed out and of the values reported back. *)

Module UnitSquare.

Definition sq_distance (x y : list Q) : Q :=
  Qred (foldr Qplus 0%Q (zip_with (λ a b, ((a - b) * (a - b))%Q) x y)).

Fixpoint insert_by (p : Q * Z) (l : list (Q * Z)) : list (Q * Z) :=
  match l with
  | [] => [p]
  | h :: rest =>
      if Qle_bool h.1 p.1 then h :: insert_by p rest else p :: h :: rest
  end.

Definition flat_search (rows : list (list Q)) (q : NDArray) (k : Z)
  : pyresult InternalSearchResult :=
  let scored := imap (λ i r, (sq_distance (data q) r, Z.of_nat i)) rows in
  let best := take (Z.to_nat k) (foldl (λ acc p, insert_by p acc) [] scored) in
  Ok {| isr_distances := best.*1; isr_indices := best.*2 |}.

Definition corners : list (list Q) :=
  [[0; 0]; [1; 0]; [0; 1]; [1; 1]]%Q.

Definition index : Index :=
  {| embeddings := corners;
     bounds := [(0, 1); (0, 1)]%Q;
     dims := 2;
     _search := flat_search corners |}.

Definition proposal : gmap string Q :=
  <["x0" := (1 # 10)%Q]> (<["x1" := (1 # 10)%Q]> ∅).

#[export] Instance ledger : Ax :=
  {| AxClient := list (option Q);
     ax_client := λ _, [];
     ParameterConfigs := list (Q * Q);
     parameter_configs := bounds;
     parameter_name_list :=
       λ d, map (λ i : nat, "x" +:+ pretty i) (seq 0 (Z.to_nat d));
     StepConfig := GenerationStep;
     generation_step := id;
     create_experiment := λ c _ _ _, (Ok (), c);
     get_next_trial :=
       λ c, (Ok (proposal, Z.of_nat (length c)), c ++ [None]);
     complete_trial :=
       λ c i _ v, (Ok (), <[Z.to_nat i := Some v]> c);
     Kwargs := unit;
     render_with := λ _ _ c, (Ok (), c) |}.

(** The scoring function: the distance to the nearest neighbour. *)
Definition nearest (r : SearchResult) : pyresult Q :=
  match distances r with
  | d :: _ => Ok d
  | [] => Raise (Foreign "empty result")
  end.

(** A scoring function that always fails. *)
Definition failing (r : SearchResult) : pyresult Q :=
  Raise (Foreign "scoring failed").


(** The optimizer [__init__] builds over [index] from [three_trials]. *)
Definition optimizer (evaluate_fn : SearchResult → pyresult Q)
  : AxServiceOptimizer.t :=
  {| AxServiceOptimizer._ax_client := [];
     AxServiceOptimizer._remaining_steps := 3;
     AxServiceOptimizer._index := index;
     AxServiceOptimizer._evaluate_fn := evaluate_fn |}.

(** What the scoring function is handed for [proposal]. *)
Definition proposal_result : SearchResult :=
  {| query := vector [1 # 10; 1 # 10]%Q;
     vectors := [[0; 0]]%Q;
     distances := [(1 # 50)%Q];
     indices := [0] |}.

End UnitSquare.

(** ** Vocabulary of the specification *)

(** Every coordinate of [q] lies between the bounds of its dimension,
    both ends included. *)
Definition within_bounds (self : Index) (q : list Q) : Prop :=
  ∀ i x lo hi,
    q !! i = Some x → bounds self !! i = Some (lo, hi) →
    (lo <= x)%Q ∧ (x <= hi)%Q.

(** Coordinate [i] of [q] is below the lower or above the upper bound. *)
Definition violates_at (self : Index) (q : list Q) (i : nat) : Prop :=
  ∃ x lo hi,
    q !! i = Some x ∧ bounds self !! i = Some (lo, hi) ∧
    ((x < lo)%Q ∨ (hi < x)%Q).

(** The four checks of [search], as the specification words them. *)
Definition check_shape (q : NDArray) : Prop := ndim q = 1%nat.
Definition check_dimension (self : Index) (q : NDArray) : Prop :=
  Z.of_nat (length (data q)) = dims self.
Definition check_bounds (self : Index) (q : NDArray) : Prop :=
  within_bounds self (data q).
Definition check_k (k : Z) : Prop := 1 ≤ k.

(** The invariant of the bounds: no dimension is empty. *)
Definition bounds_ordered (self : Index) : Prop :=
  ∀ i lo hi, bounds self !! i = Some (lo, hi) → (lo <= hi)%Q.

(** The rows [embeddings[indices]] denotes, every index being in range:
    position [j] holds the row at [indices[j]], counted from the end when
    negative. *)
Definition index_in_range {A} (rows : list A) (i : Z) : Prop :=
  - Z.of_nat (length rows) ≤ i < Z.of_nat (length rows).

Definition gathered {A} (rows : list A) (idx : list Z) (out : list A) : Prop :=
  length out = length idx ∧
  ∀ j i, idx !! j = Some i →
    index_in_range rows i ∧
    out !! j = rows !! Z.to_nat (i mod Z.of_nat (length rows)).

Definition total_trials (steps : list GenerationStep) : Z :=
  foldr (λ st acc, num_trials st + acc) 0 steps.

(** The rendering kinds the specification lists. *)
Definition listed_kinds : list string :=
  ["interactive"; "static"; "tradeoff"; "cross_validate"; "slice"; "tile"].

(** The rendering kinds [render] accepts, each with the routine it selects. *)
Definition accepted_kinds : list (string * renderer) :=
  [("interactive", _render_interactive);
   ("static", _render_static);
   ("tradeoff", _render_tradeoff);
   ("cross_validate", _render_cross_validate);
   ("cv", _render_cross_validate);
   ("slice", _render_slice);
   ("tile", _render_tile)].

(** What a call made while evaluating a trial may be: a search, or a call
    of the scoring function [f] whose failure is the outcome [r]. *)
Definition evaluation_call {A} (f : SearchResult → pyresult Q)
    (r : pyresult A) (ev : event) : Prop :=
  match ev with
  | EvSearch _ _ => True
  | EvScore sr => ∀ e, f sr = Raise e → r = Raise e
  | _ => False
  end.

(** The call that encodes the batch [b]: [_encode] applied to the texts
    [transform] made of it. *)
Definition encodes_batch {Row} (transform : list Row → pyresult (list string))
    (b : list Row) (ev : event) : Prop :=
  ∃ texts, transform b = Ok texts ∧ ev = EvEncode texts.

(** [enc] is what [self] encodes the batch [b] to, and passes the check
    of [encode] on its last axis. *)
Definition encoding_of {Row} (self : Embedders.Embedder)
    (transform : list Row → pyresult (list string))
    (b : list Row) (enc : NDArray) : Prop :=
  ∃ texts, transform b = Ok texts ∧ Embedders._encode self texts = Ok enc ∧
           shape_last enc = Ok (Z.to_nat (Embedders.dims self)) ∧
           0 ≤ Embedders.dims self.

(** The extent of an array along its first axis. *)
Definition rows_of (a : NDArray) : nat := default 0%nat (head (shape a)).

Definition total_rows (arrays : list NDArray) : nat :=
  foldr (λ a acc, (rows_of a + acc)%nat) 0%nat arrays.


(** [needle] occurs in [s]. *)
Definition mentions (s needle : string) : Prop :=
  ∃ before after, s = before +:+ needle +:+ after.

(** ** Unfolding computations *)

Ltac eff_unfold :=
  unfold mbind, mret, Eff_bind, Eff_ret, eff_bind, eff_ret, lift, raise, call.

Ltac eff_simpl := eff_unfold; simpl.

(** ** Arrays *)

Lemma lookup_map {A B} (f : A → B) (l : list A) (i : nat) :
  map f l !! i = f <$> (l !! i).
Proof. revert i; induction l as [|a l IH]; intros [|i]; simpl; auto. Qed.

Lemma py_all_zip_with (cmp : Q → Q → bool) (xs ys : list Q) :
  py_all (zip_with cmp xs ys) = true ↔
  ∀ i x y, xs !! i = Some x → ys !! i = Some y → cmp x y = true.
Proof.
  unfold py_all. revert ys.
  induction xs as [|x xs IH]; intros [|y ys]; simpl;
    try (split; [intros _ i ? ? Hx Hy; by destruct i | done]).
  rewrite andb_true_iff, IH. unfold id. split.
  - intros [Hx Hr] [|i] x' y' ? ?; simplify_eq/=; eauto.
  - intros Hall. split.
    + by apply (Hall 0%nat).
    + intros i x' y' ? ?. by apply (Hall (S i)).
Qed.

Lemma np_compare_same (cmp : Q → Q → bool) (xs ys : list Q) :
  length xs = length ys → np_compare cmp xs ys = Ok (zip_with cmp xs ys).
Proof. intros E. unfold np_compare. by rewrite decide_True. Qed.

Lemma vector_wf (xs : list Q) : array_wf (vector xs).
Proof. unfold array_wf, vector, size_of_shape; simpl. lia. Qed.

Lemma rank_one_shape (q : NDArray) :
  array_wf q → ndim q = 1%nat → shape q = [length (data q)].
Proof.
  unfold array_wf, ndim, size_of_shape.
  destruct (shape q) as [|n [|m sh]]; simpl; try discriminate.
  intros -> _. f_equal. lia.
Qed.

(** ** [in_range] *)

Lemma in_range_same_length (self : Index) (q : list Q) :
  length q = length (bounds self) →
  in_range self q =
    Ok (py_all (zip_with (λ x y, Qle_bool y x) q (lower self))
        && py_all (zip_with Qle_bool q (upper self))).
Proof.
  intros E. unfold in_range, np_ge, np_le, lower, upper.
  rewrite !np_compare_same by (by rewrite length_map).
  by destruct (py_all _).
Qed.

Lemma in_range_true_iff (self : Index) (q : list Q) :
  length q = length (bounds self) →
  in_range self q = Ok true ↔ within_bounds self q.
Proof.
  intros E. rewrite in_range_same_length by done.
  unfold within_bounds, lower, upper. split.
  - intros [= Hb]. apply andb_true_iff in Hb as [Hlo Hhi].
    rewrite py_all_zip_with in Hlo, Hhi.
    intros i x lo hi Hx Hb. split; apply Qle_bool_iff.
    + apply (Hlo i x lo); [done|]. by rewrite lookup_map, Hb.
    + apply (Hhi i x hi); [done|]. by rewrite lookup_map, Hb.
  - intros Hin. f_equal. apply andb_true_iff.
    split; apply py_all_zip_with; intros i x y Hx Hy;
      rewrite lookup_map in Hy;
      destruct (bounds self !! i) as [[lo hi]|] eqn:Hb; simplify_eq/=;
      apply Qle_bool_iff; edestruct (Hin i x) as [? ?]; eauto.
Qed.

Lemma in_range_returns (self : Index) (q : list Q) :
  length q = length (bounds self) →
  in_range self q = Ok true ∨ in_range self q = Ok false.
Proof.
  intros E. rewrite in_range_same_length by done.
  destruct (_ && _); auto.
Qed.

Lemma in_range_false_iff (self : Index) (q : list Q) :
  length q = length (bounds self) →
  in_range self q = Ok false ↔ ¬ within_bounds self q.
Proof.
  intros E. rewrite <- in_range_true_iff by done.
  destruct (in_range_returns self q E) as [-> | ->]; split; done.
Qed.

Lemma violation_not_within (self : Index) (q : list Q) (i : nat) :
  violates_at self q i → ¬ within_bounds self q.
Proof.
  intros (x & lo & hi & Hx & Hb & Hv) Hin.
  destruct (Hin i x lo hi Hx Hb) as [Hlo Hhi].
  destruct Hv as [Hv | Hv]; [apply (Qlt_not_le _ _ Hv Hlo) | apply (Qlt_not_le _ _ Hv Hhi)].
Qed.

(** ** [search], one check at a time *)

Lemma search_not_1d {S} (self : Index) (q : NDArray) (k : Z) (s : S) :
  ndim q ≠ 1%nat →
  search self q k s = (Raise (shape_error (ndim q)), s, []).
Proof.
  intros Hn. unfold search. apply Nat.eqb_neq in Hn. by rewrite Hn.
Qed.

Lemma search_wrong_dimension {S} (self : Index) (q : NDArray) (k : Z) (s : S) n :
  shape q = [n] → Z.of_nat n ≠ dims self →
  search self q k s = (Raise (dimension_error (dims self) n), s, []).
Proof.
  intros Hs Hd. unfold search, ndim, shape_first. rewrite Hs. eff_simpl.
  apply Z.eqb_neq in Hd. by rewrite Hd.
Qed.

Lemma search_outside {S} (self : Index) (q : NDArray) (k : Z) (s : S) n :
  shape q = [n] → Z.of_nat n = dims self →
  in_range self (data q) = Ok false →
  search self q k s = (Raise bounds_error, s, []).
Proof.
  intros Hs Hd Hr. unfold search, ndim, shape_first. rewrite Hs. eff_simpl.
  apply Z.eqb_eq in Hd. by rewrite Hd, Hr.
Qed.

Lemma search_bad_k {S} (self : Index) (q : NDArray) (k : Z) (s : S) n :
  shape q = [n] → Z.of_nat n = dims self →
  in_range self (data q) = Ok true → k < 1 →
  search self q k s = (Raise (k_error k), s, []).
Proof.
  intros Hs Hd Hr Hk. unfold search, ndim, shape_first. rewrite Hs. eff_simpl.
  apply Z.eqb_eq in Hd. apply Z.ltb_lt in Hk. by rewrite Hd, Hr, Hk.
Qed.

(** Past the four checks: the call of [_search], then the gather. *)
Lemma search_validated {S} (self : Index) (q : NDArray) (k : Z) (s : S) n :
  shape q = [n] → Z.of_nat n = dims self →
  in_range self (data q) = Ok true → 1 ≤ k →
  search self q k s =
    match _search self q k with
    | Raise e => (Raise e, s, [EvSearch q k])
    | Ok r =>
        match np_take (embeddings self) (isr_indices r) with
        | Raise e => (Raise e, s, [EvSearch q k])
        | Ok vecs =>
            (Ok {| query := q; vectors := vecs;
                   distances := isr_distances r; indices := isr_indices r |},
             s, [EvSearch q k])
        end
    end.
Proof.
  intros Hs Hd Hr Hk. unfold search, ndim, shape_first. rewrite Hs. eff_simpl.
  apply Z.eqb_eq in Hd. apply Z.ltb_ge in Hk. rewrite Hd, Hr, Hk. simpl.
  destruct (_search self q k) as [r|e]; [|done].
  by destruct (np_take _ _).
Qed.

Lemma search_calls_validated {S} (self : Index) (q : NDArray) (k : Z) (s : S) n :
  shape q = [n] → Z.of_nat n = dims self →
  in_range self (data q) = Ok true → 1 ≤ k →
  calls (search self q k s) = [EvSearch q k].
Proof.
  intros Hs Hd Hr Hk. rewrite (search_validated self q k s n) by done.
  destruct (_search self q k) as [r|e]; [|done].
  by destruct (np_take _ _).
Qed.


(** The checks of a well-formed query against a well-formed index,
    connected to what the code computes. *)
Lemma checks_shape (self : Index) (q : NDArray) :
  array_wf q → check_shape q → shape q = [length (data q)].
Proof. apply rank_one_shape. Qed.

Lemma checks_length (self : Index) (q : NDArray) :
  index_wf self → check_dimension self q →
  length (data q) = length (bounds self).
Proof. unfold index_wf, check_dimension. lia. Qed.

(** C1. [search] validates in a fixed order: the rank of the query, then
    its length against [dims], then its coordinates against the bounds,
    then [k >= 1].  Each failing check raises its own error, and the error
    raised is that of the first check that fails; [_search] is called
    exactly when all four checks pass. *)
Theorem search_validates_in_order {S} (self : Index) (q : NDArray) (k : Z) (s : S) :
  index_wf self → array_wf q →
  (¬ check_shape q →
     search self q k s = (Raise (shape_error (ndim q)), s, [])) ∧
  (check_shape q → ¬ check_dimension self q →
     search self q k s =
       (Raise (dimension_error (dims self) (length (data q))), s, [])) ∧
  (check_shape q → check_dimension self q → ¬ check_bounds self q →
     search self q k s = (Raise bounds_error, s, [])) ∧
  (check_shape q → check_dimension self q → check_bounds self q → ¬ check_k k →
     search self q k s = (Raise (k_error k), s, [])) ∧
  (check_shape q → check_dimension self q → check_bounds self q → check_k k →
     calls (search self q k s) = [EvSearch q k]) ∧
  (calls (search self q k s) ≠ [] →
     check_shape q ∧ check_dimension self q ∧ check_bounds self q ∧ check_k k).
Proof.
  intros Hwf Hq.
  assert (H1 : ¬ check_shape q →
               search self q k s = (Raise (shape_error (ndim q)), s, []))
    by apply search_not_1d.
  assert (H2 : check_shape q → ¬ check_dimension self q →
               search self q k s =
                 (Raise (dimension_error (dims self) (length (data q))), s, [])).
  { intros Hs Hd. by apply search_wrong_dimension; [apply checks_shape|]. }
  assert (H3 : check_shape q → check_dimension self q → ¬ check_bounds self q →
               search self q k s = (Raise bounds_error, s, [])).
  { intros Hs Hd Hb.
    apply (search_outside self q k s (length (data q)));
      [by apply checks_shape | done |].
    apply in_range_false_iff; [by apply checks_length | done]. }
  assert (H4 : check_shape q → check_dimension self q → check_bounds self q →
               ¬ check_k k → search self q k s = (Raise (k_error k), s, [])).
  { intros Hs Hd Hb Hk.
    apply (search_bad_k self q k s (length (data q)));
      [by apply checks_shape | done | | unfold check_k in Hk; lia].
    apply in_range_true_iff; [by apply checks_length | done]. }
  refine (conj H1 (conj H2 (conj H3 (conj H4 (conj _ _))))).
  - intros Hs Hd Hb Hk.
    apply (search_calls_validated self q k s (length (data q)));
      [by apply checks_shape | done | | done].
    apply in_range_true_iff; [by apply checks_length | done].
  - intros Hc.
    destruct (decide (ndim q = 1%nat)) as [Hs|Hs];
      [|by rewrite H1 in Hc].
    destruct (decide (Z.of_nat (length (data q)) = dims self)) as [Hd|Hd];
      [|by rewrite H2 in Hc].
    destruct (in_range_returns self (data q)) as [Hr|Hr];
      [by apply checks_length | |].
    + apply in_range_true_iff in Hr; [|by apply checks_length].
      destruct (decide (1 ≤ k)) as [Hk|Hk]; [done|].
      by rewrite H4 in Hc.
    + apply in_range_false_iff in Hr; [|by apply checks_length].
      by rewrite H3 in Hc.
Qed.

Lemma search_validates_in_order_witness :
  index_wf UnitSquare.index ∧ array_wf (vector [2; 2]%Q) ∧
  search UnitSquare.index (vector [2; 2]%Q) 0 () = (Raise bounds_error, (), []).
Proof.
  assert (Hi : index_wf UnitSquare.index) by reflexivity.
  assert (Hq : array_wf (vector [2; 2]%Q)) by reflexivity.
  split; [exact Hi | split; [exact Hq |]].
  destruct (search_validates_in_order UnitSquare.index (vector [2; 2]%Q) 0 () Hi Hq)
    as (_ & _ & H3 & _).
  apply H3; [reflexivity | reflexivity |].
  intros Hb. destruct (Hb 0%nat 2%Q 0%Q 1%Q eq_refl eq_refl) as [_ Hle].
  unfold Qle in Hle; simpl in Hle; lia.
Defined.

(** C4. A 1-D query of the right length with a coordinate outside its
    bounds makes [search] raise the bounds error, whose message names
    [index.lower] and [index.upper]; [_search] is not called. *)
Theorem search_out_of_bounds {S} (self : Index) (xs : list Q) (k : Z) (s : S) i :
  index_wf self → Z.of_nat (length xs) = dims self →
  violates_at self xs i →
  search self (vector xs) k s = (Raise (ValueError bounds_message), s, []) ∧
  mentions bounds_message "index.lower" ∧
  mentions bounds_message "index.upper" ∧
  (∀ q' k', ¬ In (EvSearch q' k') (calls (search self (vector xs) k s))).
Proof.
  intros Hwf Hd Hv.
  assert (Hs : search self (vector xs) k s = (Raise bounds_error, s, [])).
  { apply (search_outside self (vector xs) k s (length xs)); [done | done |].
    apply in_range_false_iff; [unfold index_wf in Hwf; simpl; lia|].
    by apply (violation_not_within self xs i). }
  split; [exact Hs|]. split; [|split].
  - by exists "Query is out of bounds. Call ", " and index.upper for the boundary.".
  - by exists "Query is out of bounds. Call index.lower and ", " for the boundary.".
  - intros q' k'. rewrite Hs. simpl. tauto.
Qed.

Lemma search_out_of_bounds_witness :
  search UnitSquare.index (vector [2; 2]%Q) 1 () =
    (Raise (ValueError bounds_message), (), []).
Proof.
  apply (search_out_of_bounds UnitSquare.index [2; 2]%Q 1 () 1%nat);
    [reflexivity | reflexivity |].
  exists 2%Q, 0%Q, 1%Q. split; [reflexivity | split; [reflexivity |]].
  right. reflexivity.
Defined.




(** ** Gathering rows *)

Lemma np_row_ok {A} (rows : list A) (i : Z) (r : A) :
  np_row rows i = Ok r →
  index_in_range rows i ∧
  rows !! Z.to_nat (i mod Z.of_nat (length rows)) = Some r.
Proof.
  unfold np_row, index_in_range.
  set (n := Z.of_nat (length rows)).
  destruct (i <? 0) eqn:Hneg;
    [apply Z.ltb_lt in Hneg | apply Z.ltb_ge in Hneg];
    match goal with
    | |- context [(0 <=? ?j) && (?j <? n)] =>
        destruct ((0 <=? j) && (j <? n)) eqn:Hj; [|discriminate]
    end;
    apply andb_true_iff in Hj as [Hj1 Hj2];
    apply Z.leb_le in Hj1; apply Z.ltb_lt in Hj2.
  - destruct (rows !! Z.to_nat (i + n)) as [r'|] eqn:Hr; [|discriminate].
    intros [= ->]. split; [lia|].
    replace (i mod n) with (i + n); [done|].
    apply (Z.mod_unique_pos i n (-1)); lia.
  - destruct (rows !! Z.to_nat i) as [r'|] eqn:Hr; [|discriminate].
    intros [= ->]. split; [lia|].
    by rewrite Z.mod_small by lia.
Qed.

Lemma np_row_total {A} (rows : list A) (i : Z) :
  index_in_range rows i → ∃ r, np_row rows i = Ok r.
Proof.
  unfold np_row, index_in_range.
  set (n := Z.of_nat (length rows)). intros Hi.
  destruct (i <? 0) eqn:Hneg;
    [apply Z.ltb_lt in Hneg | apply Z.ltb_ge in Hneg].
  - replace ((0 <=? i + n) && (i + n <? n)) with true
      by (symmetry; apply andb_true_iff; split; [apply Z.leb_le | apply Z.ltb_lt]; lia).
    destruct (lookup_lt_is_Some_2 rows (Z.to_nat (i + n))) as [r ->];
      [unfold n; lia | by exists r].
  - replace ((0 <=? i) && (i <? n)) with true
      by (symmetry; apply andb_true_iff; split; [apply Z.leb_le | apply Z.ltb_lt]; lia).
    destruct (lookup_lt_is_Some_2 rows (Z.to_nat i)) as [r ->];
      [unfold n in *; lia | by exists r].
Qed.

Lemma np_take_ok {A} (rows : list A) (idx : list Z) (out : list A) :
  np_take rows idx = Ok out → gathered rows idx out.
Proof.
  revert out. induction idx as [|i idx IH]; intros out; simpl.
  - intros [= <-]. split; [done|]. by intros [|j] i'.
  - destruct (np_row rows i) as [r|e] eqn:Hr; [|discriminate].
    destruct (np_take rows idx) as [rs|e]; [|discriminate].
    intros [= <-]. destruct (IH rs eq_refl) as [Hlen Hat].
    split; [simpl; by rewrite Hlen|].
    intros [|j] i' Hi; simpl in *.
    + injection Hi as <-. destruct (np_row_ok rows i r Hr) as [? ->]. done.
    + by apply Hat.
Qed.

Lemma np_take_total {A} (rows : list A) (idx : list Z) :
  Forall (index_in_range rows) idx → ∃ out, np_take rows idx = Ok out.
Proof.
  induction 1 as [|i idx Hi _ [rs IH]]; simpl; [by exists []|].
  destruct (np_row_total rows i Hi) as [r ->]. rewrite IH. by exists (r :: rs).
Qed.

(** C6. Past validation, the result of [search] carries the query it was
    given, the indices and distances of [_search] as they came, and as
    [vectors] the rows of [embeddings] at those indices; the gather is done
    by [search] on what [_search] returned. *)
Theorem search_gathers_vectors {S} (self : Index) (q : NDArray) (k : Z) (s : S)
    (r : InternalSearchResult) :
  index_wf self → array_wf q →
  check_shape q → check_dimension self q → check_bounds self q → check_k k →
  _search self q k = Ok r →
  (Forall (index_in_range (embeddings self)) (isr_indices r) →
     ∃ res, search self q k s = (Ok res, s, [EvSearch q k])) ∧
  (∀ res, outcome (search self q k s) = Ok res →
     query res = q ∧
     gathered (embeddings self) (isr_indices r) (vectors res) ∧
     distances res = isr_distances r ∧
     indices res = isr_indices r).
Proof.
  intros Hwf Hq Hs Hd Hb Hk Hr.
  assert (E := search_validated self q k s (length (data q))
                 (checks_shape self q Hq Hs) Hd
                 (proj2 (in_range_true_iff self (data q)
                           (checks_length self q Hwf Hd)) Hb) Hk).
  rewrite Hr in E. split.
  - intros Hin. destruct (np_take_total _ _ Hin) as [vecs Hv].
    rewrite Hv in E. eauto.
  - intros res. rewrite E.
    destruct (np_take (embeddings self) (isr_indices r)) as [vecs|e] eqn:Hv;
      [|discriminate].
    unfold outcome; simpl. intros [= <-]; simpl.
    split; [done|]. split; [by apply np_take_ok|done].
Qed.

Lemma search_gathers_vectors_witness :
  ∃ res, search UnitSquare.index (vector [1 # 10; 1 # 10]%Q) 2 () =
           (Ok res, (), [EvSearch (vector [1 # 10; 1 # 10]%Q) 2]) ∧
         vectors res = [[0; 0]; [1; 0]]%Q.
Proof.
  destruct (search_gathers_vectors UnitSquare.index (vector [1 # 10; 1 # 10]%Q) 2 ()
              {| isr_distances := [1 # 50; 41 # 50]%Q; isr_indices := [0; 1] |})
    as [Hret _];
    [reflexivity | reflexivity | reflexivity | reflexivity
    | apply in_range_true_iff; reflexivity | unfold check_k; lia
    | reflexivity |].
  destruct Hret as [res Hres].
  { repeat constructor; unfold index_in_range; simpl; lia. }
  exists res. split; [exact Hres|].
  vm_compute in Hres. by injection Hres as <-.
Defined.

(** C8. On a 1-D query of the right length, [in_range] returns, and
    returns true exactly when every coordinate lies between its bounds,
    ends included.  So the upper bound itself is in range and [search] on
    it passes validation and delivers what [_search] found, while a query
    with a coordinate beyond a bound is rejected. *)
Theorem in_range_inclusive {S} (self : Index) (xs : list Q) (s : S) :
  index_wf self → Z.of_nat (length xs) = dims self →
  (in_range self xs = Ok true ↔ within_bounds self xs) ∧
  (in_range self xs = Ok false ↔ ¬ within_bounds self xs) ∧
  (bounds_ordered self →
     in_range self (upper self) = Ok true ∧
     ∀ k, 1 ≤ k →
       calls (search self (vector (upper self)) k s)
         = [EvSearch (vector (upper self)) k] ∧
       ∀ r vecs,
         _search self (vector (upper self)) k = Ok r →
         np_take (embeddings self) (isr_indices r) = Ok vecs →
         outcome (search self (vector (upper self)) k s)
           = Ok {| query := vector (upper self); vectors := vecs;
                   distances := isr_distances r; indices := isr_indices r |}) ∧
  (∀ i k, violates_at self xs i →
     in_range self xs = Ok false ∧
     search self (vector xs) k s = (Raise bounds_error, s, [])).
Proof.
  intros Hwf Hd.
  assert (Hlen : length xs = length (bounds self))
    by (unfold index_wf in Hwf; lia).
  split; [by apply in_range_true_iff|].
  split; [by apply in_range_false_iff|].
  split.
  - intros Hord.
    assert (Hul : length (upper self) = length (bounds self))
      by (unfold upper; by rewrite length_map).
    assert (Hup : in_range self (upper self) = Ok true).
    { apply in_range_true_iff; [done|].
      intros i x lo hi Hx Hb. unfold upper in Hx.
      rewrite lookup_map, Hb in Hx. simpl in Hx. injection Hx as <-.
      split; [by apply (Hord i)|apply Qle_refl]. }
    split; [exact Hup|]. intros k Hk.
    assert (Hn : Z.of_nat (length (upper self)) = dims self)
      by (unfold index_wf in Hwf; lia).
    split; [by apply (search_calls_validated _ _ _ _ (length (upper self)))|].
    intros r vecs Hr Hv.
    rewrite (search_validated self (vector (upper self)) k s (length (upper self)))
      by done.
    by rewrite Hr, Hv.
  - intros i k Hv.
    assert (Hout : in_range self xs = Ok false).
    { apply in_range_false_iff; [done|]. by apply (violation_not_within self xs i). }
    split; [exact Hout|].
    by apply (search_outside self (vector xs) k s (length xs)).
Qed.

Lemma in_range_inclusive_witness :
  in_range UnitSquare.index [1; 1]%Q = Ok true ∧
  in_range UnitSquare.index [2; 2]%Q = Ok false ∧
  (∃ res, search UnitSquare.index (vector [1; 1]%Q) 1 () =
            (Ok res, (), [EvSearch (vector [1; 1]%Q) 1])) ∧
  search UnitSquare.index (vector [2; 2]%Q) 1 () = (Raise bounds_error, (), []).
Proof.
  destruct (in_range_inclusive UnitSquare.index [2; 2]%Q ())
    as (_ & _ & Hup & Hout); [reflexivity | reflexivity |].
  destruct Hup as [Hin _].
  { intros [|[|i]] lo hi [= <- <-]; unfold Qle; simpl; lia. }
  destruct (Hout 0%nat 1) as [Hfalse Hraise].
  { exists 2%Q, 0%Q, 1%Q. split; [reflexivity | split; [reflexivity |]].
    right. reflexivity. }
  split; [exact Hin | split; [exact Hfalse | split; [| exact Hraise]]].
  eexists. vm_compute. reflexivity.
Defined.

(** ** [Embedder.encode] *)

Lemma encode_zero_dimensional {S} (self : Embedders.Embedder)
    (text : list string) (s : S) (encoded : NDArray) :
  Embedders._encode self text = Ok encoded → shape encoded = [] →
  Embedders.encode self text s =
    (Raise (IndexError "tuple index out of range"), s, [EvEncode text]).
Proof.
  intros He Hs. unfold Embedders.encode, shape_last. eff_simpl.
  by rewrite He, Hs.
Qed.

(** C10. [encode] hands back the array of [_encode] untouched when the
    last entry of its shape equals [dims], whatever comes before it in the
    shape, and otherwise raises a [ValueError] that names [dims] and the
    dimension found. *)
Theorem encode_checks_last_axis {S} (self : Embedders.Embedder)
    (text : list string) (s : S) (encoded : NDArray) (pre : list nat) (d : nat) :
  Embedders._encode self text = Ok encoded →
  shape encoded = pre ++ [d] →
  (Z.of_nat d = Embedders.dims self →
     Embedders.encode self text s = (Ok encoded, s, [EvEncode text])) ∧
  (Z.of_nat d ≠ Embedders.dims self →
     Embedders.encode self text s =
       (Raise (ValueError ("Expected the encoded embeddings to have dimension "
                           +:+ pretty (Embedders.dims self)
                           +:+ ", got " +:+ pretty d)),
        s, [EvEncode text])).
Proof.
  intros He Hs.
  assert (E : Embedders.encode self text s =
              if negb (Z.of_nat d =? Embedders.dims self)
              then (Raise (Embedders.encode_error (Embedders.dims self) d),
                    s, [EvEncode text])
              else (Ok encoded, s, [EvEncode text])).
  { unfold Embedders.encode, shape_last. eff_simpl.
    rewrite He, Hs, last_snoc. simpl. by destruct (negb _). }
  split; intros Hd; rewrite E.
  - apply Z.eqb_eq in Hd. by rewrite Hd.
  - apply Z.eqb_neq in Hd. by rewrite Hd.
Qed.

Lemma encode_checks_last_axis_witness :
  Embedders.encode
    {| Embedders.batch := 64; Embedders.dims := 2;
       Embedders._encode := λ _, Ok (mkArray [4; 3; 2]%nat (replicate 24 0%Q)) |}
    ["a"; "b"] () =
  (Ok (mkArray [4; 3; 2]%nat (replicate 24 0%Q)), (), [EvEncode ["a"; "b"]]).
Proof.
  apply (encode_checks_last_axis
           {| Embedders.batch := 64; Embedders.dims := 2;
              Embedders._encode :=
                λ _, Ok (mkArray [4; 3; 2]%nat (replicate 24 0%Q)) |}
           ["a"; "b"] () (mkArray [4; 3; 2]%nat (replicate 24 0%Q))
           [4; 3]%nat 2%nat); reflexivity.
Defined.

(** ** The trial budget *)

Lemma fold_left_trials (steps : list GenerationStep) (a : Z) :
  fold_left Z.add (map num_trials steps) a = a + total_trials steps.
Proof.
  revert a. induction steps as [|st steps IH]; intros a; simpl; [lia|].
  rewrite IH. lia.
Qed.

Lemma all_trials_nonnegative (steps : list GenerationStep) :
  forallb (λ t, t >=? 0) (map num_trials steps) = true ↔
  Forall (λ st, 0 ≤ num_trials st) steps.
Proof.
  induction steps as [|st steps IH]; simpl; [by split|].
  rewrite andb_true_iff, IH, Z.geb_le, Forall_cons. done.
Qed.

Lemma terminate_step_sum (steps : list GenerationStep) :
  Forall (λ st, 0 ≤ num_trials st) steps →
  AxServiceOptimizer._terminate_step steps = total_trials steps.
Proof.
  intros Hall. unfold AxServiceOptimizer._terminate_step.
  apply all_trials_nonnegative in Hall as ->.
  by rewrite fold_left_trials.
Qed.

(** C3. The budget derived from the generation steps is the sum of their
    trial counts when none is negative and [-1] as soon as one is; so
    [[5, 10, -1]] gives [-1] and [[5, 10, 15]] gives [30]. *)
Theorem terminate_step_budget (steps : list GenerationStep) :
  (Forall (λ st, 0 ≤ num_trials st) steps →
     AxServiceOptimizer._terminate_step steps = total_trials steps) ∧
  (Exists (λ st, num_trials st < 0) steps →
     AxServiceOptimizer._terminate_step steps = -1) ∧
  (map num_trials steps = [5; 10; -1] →
     AxServiceOptimizer._terminate_step steps = -1) ∧
  (map num_trials steps = [5; 10; 15] →
     AxServiceOptimizer._terminate_step steps = 30).
Proof.
  split; [|unfold AxServiceOptimizer._terminate_step; split; [|split]].
  - apply terminate_step_sum.
  - intros Hex.
    destruct (forallb _ _) eqn:Hall; [|done].
    apply all_trials_nonnegative in Hall.
    apply Exists_exists in Hex as (st & Hin & Hneg).
    rewrite Forall_forall in Hall. specialize (Hall st Hin). lia.
  - by intros ->.
  - by intros ->.
Qed.

Lemma terminate_step_budget_witness :
  AxServiceOptimizer._terminate_step
    [{| model := "SOBOL"; num_trials := 5 |};
     {| model := "GPEI"; num_trials := 10 |};
     {| model := "GPEI"; num_trials := 15 |}] = 30 ∧
  AxServiceOptimizer._terminate_step
    [{| model := "SOBOL"; num_trials := 5 |};
     {| model := "GPEI"; num_trials := 10 |};
     {| model := "GPEI"; num_trials := -1 |}] = -1.
Proof.
  split.
  - apply (terminate_step_budget
             [{| model := "SOBOL"; num_trials := 5 |};
              {| model := "GPEI"; num_trials := 10 |};
              {| model := "GPEI"; num_trials := 15 |}]).
    reflexivity.
  - apply (terminate_step_budget
             [{| model := "SOBOL"; num_trials := 5 |};
              {| model := "GPEI"; num_trials := 10 |};
              {| model := "GPEI"; num_trials := -1 |}]).
    reflexivity.
Defined.

(** ** The optimizer loop *)

Section Optimizer.
Context `{Ax}.
Import AxServiceOptimizer.

Lemma search_frame {S} (self : Index) (q : NDArray) (k : Z) (s : S) :
  ∃ r t, search self q k s = (r, s, t) ∧ (t = [] ∨ t = [EvSearch q k]).
Proof.
  unfold search. eff_unfold.
  destruct (negb (ndim q =? 1)%nat); [eauto|].
  destruct (shape_first q) as [dim|e]; [|eauto].
  destruct (negb (Z.of_nat dim =? dims self)); [eauto|].
  destruct (in_range self (data q)) as [[]|e]; simpl; [|eauto|eauto].
  destruct (k <? 1); [eauto|].
  destruct (_search self q k) as [r|e]; [|eauto].
  destruct (np_take _ _); simpl; eauto.
Qed.

Lemma evaluate_index_frame {S} (q : NDArray) (index : Index)
    (f : SearchResult → pyresult Q) (s : S) :
  ∃ r t, evaluate_index q index f s = (r, s, t) ∧
         Forall (evaluation_call f r) t.
Proof.
  unfold evaluate_index, search_default. eff_unfold.
  destruct (search_frame index q 1 s) as (r & t & -> & Ht).
  assert (Hs : ∀ A (r' : pyresult A), Forall (evaluation_call f r') t).
  { intros A r'. destruct Ht as [-> | ->]; repeat constructor. }
  destruct r as [res|e]; [|eauto].
  destruct (f res) as [v|e] eqn:Hf; simpl;
    (eexists _, _; split; [done|]; apply Forall_app; split; [apply Hs|]);
    repeat constructor; simpl; congruence.
Qed.

Lemma _evaluate_frame (parameters : gmap string Q) (self : t) :
  ∃ r tr, _evaluate parameters self = (r, self, tr) ∧
          Forall (evaluation_call (_evaluate_fn self) r) tr.
Proof.
  unfold _evaluate. eff_unfold.
  destruct (lookup_all _ _) as [coords|e]; [|by eexists _, _].
  destruct (evaluate_index_frame (vector coords) (_index self)
              (_evaluate_fn self) self) as (r & tr & -> & Htr).
  destruct r; rewrite app_nil_l; eauto.
Qed.

(** [step], stage by stage. *)
Lemma step_unfold (self : t) :
  step self =
    match RemainingSteps.step (_remaining_steps self) with
    | Raise e => (Raise e, self, [])
    | Ok c =>
        let s1 := set_remaining_steps c self in
        match get_next_trial (_ax_client s1) with
        | (Raise e, ax) => (Raise e, set_ax_client ax s1, [EvGetNextTrial])
        | (Ok (parameters, trial_index), ax) =>
            let s2 := set_ax_client ax s1 in
            match _evaluate parameters s2 with
            | (Raise e, s3, tr) => (Raise e, s3, EvGetNextTrial :: tr)
            | (Ok state, s3, tr) =>
                let done := EvCompleteTrial trial_index _KEY (evaluation state) in
                match complete_trial (_ax_client s3) trial_index _KEY
                        (evaluation state) with
                | (Ok _, ax') =>
                    (Ok state, set_ax_client ax' s3,
                     EvGetNextTrial :: tr ++ [done])
                | (Raise e, ax') =>
                    (Raise e, set_ax_client ax' s3,
                     EvGetNextTrial :: tr ++ [done])
                end
            end
        end
    end.
Proof.
  unfold step, advance, on_client. eff_unfold.
  destruct (RemainingSteps.step _) as [c|e]; [|done]. simpl.
  destruct (get_next_trial _) as [[[parameters trial_index]|e] ax]; [|done].
  simpl.
  destruct (_evaluate parameters _) as [[[state|e] s3] tr]; [|done].
  destruct (complete_trial _ _ _ _) as [[[]|e] ax']; simpl;
    by rewrite ?app_nil_r.
Qed.


(** A call of [step] that returns has decremented a positive count. *)
Lemma step_counter (self self' : t) (v : State) (tr : list event) :
  step self = (Ok v, self', tr) →
  RemainingSteps.step (_remaining_steps self) = Ok (_remaining_steps self').
Proof.
  rewrite step_unfold.
  destruct (RemainingSteps.step _) as [c|e]; [|discriminate]. simpl.
  destruct (get_next_trial _) as [[[parameters trial_index]|e] ax];
    [|discriminate].
  destruct (_evaluate_frame parameters
              (set_ax_client ax (set_remaining_steps c self)))
    as (r & tr' & -> & _).
  destruct r as [state|e]; [|discriminate].
  destruct (complete_trial _ _ _ _) as [[[]|e] ax']; [|discriminate].
  by intros [= _ <- _].
Qed.


Lemma total_trials_nonnegative (steps : list GenerationStep) :
  Forall (λ st, 0 ≤ num_trials st) steps → 0 ≤ total_trials steps.
Proof. induction 1; simpl; lia. Qed.

Lemma init_counter (index : Index) (evaluate_fn : SearchResult → pyresult Q)
    (steps : list StepConfig) (minimize : bool) (self : t) :
  __init__ index evaluate_fn steps minimize = Ok self →
  _remaining_steps self = _terminate_step (map generation_step steps).
Proof.
  unfold __init__.
  destruct (create_experiment _ _ _ _) as [[[]|e] c]; [|discriminate].
  by intros [= <-].
Qed.


(** C7. When the scoring function is called during [step] and raises, the
    exception is the outcome of [step]; [complete_trial] is not called, so
    the Ax client stays as [get_next_trial] left it, with the proposed
    trial open; and the remaining-steps counter has been advanced. *)
Theorem step_scoring_failure (self : t) (sr : SearchResult) (e : exn) :
  In (EvScore sr) (calls (step self)) →
  _evaluate_fn self sr = Raise e →
  outcome (step self) = Raise e ∧
  (∀ i key v, ¬ In (EvCompleteTrial i key v) (calls (step self))) ∧
  (∃ proposed,
     get_next_trial (_ax_client self)
       = (Ok proposed, _ax_client (final (step self)))) ∧
  RemainingSteps.step (_remaining_steps self)
    = Ok (_remaining_steps (final (step self))).
Proof.
  rewrite step_unfold.
  destruct (RemainingSteps.step _) as [c|e0]; [|intros []].
  simpl.
  destruct (get_next_trial (_ax_client self))
    as [[[parameters trial_index]|e0] ax]; [|intros [[=]|[]]].
  destruct (_evaluate_frame parameters
              (set_ax_client ax (set_remaining_steps c self)))
    as (r & tr & -> & Htr).
  rewrite Forall_forall in Htr. simpl in Htr.
  destruct r as [state|e0].
  - intros Hin Hf. exfalso.
    assert (Hin' : In (EvScore sr) tr).
    { destruct (complete_trial _ _ _ _) as [[[]|e1] ax'];
        destruct Hin as [[=]|Hin];
        apply in_app_or in Hin as [Hin|[[=]|[]]]; done. }
    apply list_elem_of_In in Hin'. by specialize (Htr _ Hin' e Hf).
  - intros [[=]|Hin] Hf.
    apply list_elem_of_In in Hin. specialize (Htr _ Hin e Hf) as Heq.
    split; [exact Heq|]. split; [|split; [by exists (parameters, trial_index)|done]].
    intros i key v [[=]|Hc]. apply list_elem_of_In in Hc. by apply Htr in Hc.
Qed.

(** C9, amended. [render] selects a routine for the kinds ["interactive"],
    ["static"], ["tradeoff"], ["cross_validate"] and its short form ["cv"],
    ["slice"] and ["tile"], and calls that routine and no other; for every
    other kind it raises [ValueError] without calling any routine and
    without touching the optimizer. *)
Theorem render_dispatch (kind : string) (kwargs : Kwargs) (self : t) :
  (∀ f, In (kind, f) accepted_kinds →
     dispatch kind = Ok f ∧ calls (render kind kwargs self) = [EvRender f]) ∧
  ((∀ f, ¬ In (kind, f) accepted_kinds) →
     render kind kwargs self = (Raise (ValueError "Not supported"), self, [])).
Proof.
  split.
  - intros f Hin.
    assert (Hd : dispatch kind = Ok f).
    { unfold accepted_kinds in Hin. simpl in Hin.
      repeat (destruct Hin as [[= <- <-]|Hin]; [reflexivity|]). destruct Hin. }
    split; [exact Hd|].
    unfold render, on_client. eff_unfold. rewrite Hd.
    by destruct (render_with f kwargs (_ax_client self)) as [r c].
  - intros Hn.
    assert (Hd : dispatch kind = Raise (ValueError "Not supported")).
    { unfold dispatch.
      repeat match goal with
             | |- context [String.eqb kind ?lit] =>
                 destruct (String.eqb_spec kind lit) as [->|_];
                 [exfalso; eapply Hn; unfold accepted_kinds; simpl; eauto 10|]
             end.
      reflexivity. }
    unfold render. eff_unfold. by rewrite Hd.
Qed.

End Optimizer.

Lemma step_scoring_failure_witness :
  let self := UnitSquare.optimizer UnitSquare.failing in
  AxServiceOptimizer.step self =
    (Raise (Foreign "scoring failed"),
     @AxServiceOptimizer.set_ax_client UnitSquare.ledger [None]
       (AxServiceOptimizer.set_remaining_steps 2 self),
     [EvGetNextTrial; EvSearch (vector [1 # 10; 1 # 10]%Q) 1;
      EvScore UnitSquare.proposal_result]) ∧
  outcome (AxServiceOptimizer.step self) = Raise (Foreign "scoring failed").
Proof.
  intros self.
  assert (Hstep : AxServiceOptimizer.step self =
    (Raise (Foreign "scoring failed"),
     @AxServiceOptimizer.set_ax_client UnitSquare.ledger [None]
       (AxServiceOptimizer.set_remaining_steps 2 self),
     [EvGetNextTrial; EvSearch (vector [1 # 10; 1 # 10]%Q) 1;
      EvScore UnitSquare.proposal_result])) by (vm_compute; reflexivity).
  split; [exact Hstep|].
  apply (@step_scoring_failure UnitSquare.ledger self UnitSquare.proposal_result).
  - rewrite Hstep. simpl. tauto.
  - reflexivity.
Defined.

(** C9, as stated, fails: ["cv"] is not among the six kinds listed, yet
    [render] accepts it and calls the cross-validation routine. *)
Lemma render_listed_kinds_counterexample :
  ¬ (∀ (ax : Ax) (kind : string) (kwargs : Kwargs) (self : AxServiceOptimizer.t),
       ¬ In kind listed_kinds →
       AxServiceOptimizer.render kind kwargs self
         = (Raise (ValueError "Not supported"), self, [])).
Proof.
  intros Hall.
  specialize (Hall UnitSquare.ledger "cv" ()
                (UnitSquare.optimizer UnitSquare.nearest)).
  assert (Hcv : ¬ In "cv" listed_kinds).
  { unfold listed_kinds. simpl. intros Hin.
    repeat (destruct Hin as [[=]|Hin]). destruct Hin. }
  specialize (Hall Hcv). vm_compute in Hall. discriminate Hall.
Qed.

Lemma render_dispatch_witness :
  calls (@AxServiceOptimizer.render UnitSquare.ledger "cv" ()
           (UnitSquare.optimizer UnitSquare.nearest))
    = [EvRender _render_cross_validate] ∧
  @AxServiceOptimizer.render UnitSquare.ledger "plot" ()
    (UnitSquare.optimizer UnitSquare.nearest)
    = (Raise (ValueError "Not supported"),
       UnitSquare.optimizer UnitSquare.nearest, []).
Proof.
  split.
  - apply (@render_dispatch UnitSquare.ledger "cv" ()
             (UnitSquare.optimizer UnitSquare.nearest)).
    unfold accepted_kinds. simpl. tauto.
  - apply (@render_dispatch UnitSquare.ledger "plot" ()
             (UnitSquare.optimizer UnitSquare.nearest)).
    unfold accepted_kinds. simpl. intros f Hin.
    repeat (destruct Hin as [[=]|Hin]). destruct Hin.
Defined.

(** * Further properties of the code *)

(** ** [search] past validation *)

Lemma np_row_outside {A} (rows : list A) (i : Z) :
  ¬ index_in_range rows i → np_row rows i = Raise (index_error i (length rows)).
Proof.
  unfold np_row, index_in_range. intros Hout.
  destruct (i <? 0) eqn:Hneg;
    [apply Z.ltb_lt in Hneg | apply Z.ltb_ge in Hneg];
    match goal with
    | |- context [(0 <=? ?j) && (?j <? ?n)] =>
        destruct ((0 <=? j) && (j <? n)) eqn:Hj; [|done]
    end;
    apply andb_true_iff in Hj as [Hj1 Hj2];
    apply Z.leb_le in Hj1; apply Z.ltb_lt in Hj2; lia.
Qed.

Lemma np_take_first_outside {A} (rows : list A) (good rest : list Z) (i : Z) :
  Forall (index_in_range rows) good → ¬ index_in_range rows i →
  np_take rows (good ++ i :: rest) = Raise (index_error i (length rows)).
Proof.
  intros Hgood Hout. induction Hgood as [|g good Hg _ IH]; simpl.
  - by rewrite np_row_outside.
  - destruct (np_row_total rows g Hg) as [r ->]. by rewrite IH.
Qed.

Lemma validated_in_range (self : Index) (q : NDArray) :
  index_wf self → array_wf q →
  check_shape q → check_dimension self q → check_bounds self q →
  shape q = [length (data q)] ∧ in_range self (data q) = Ok true.
Proof.
  intros Hwf Hq Hs Hd Hb. split; [by apply checks_shape|].
  apply in_range_true_iff; [by apply checks_length | done].
Qed.

(** X1. An exception raised by [_search] on a validated query is the
    outcome of [search]: it is neither caught nor replaced, and [_search]
    was called once. *)
Theorem search_routine_failure {S} (self : Index) (q : NDArray) (k : Z) (s : S)
    (e : exn) :
  index_wf self → array_wf q →
  check_shape q → check_dimension self q → check_bounds self q → check_k k →
  _search self q k = Raise e →
  search self q k s = (Raise e, s, [EvSearch q k]).
Proof.
  intros Hwf Hq Hs Hd Hb Hk He.
  destruct (validated_in_range self q) as [Hsh Hin]; try done.
  rewrite (search_validated self q k s (length (data q))) by done.
  by rewrite He.
Qed.

Lemma search_routine_failure_witness :
  let broken :=
    {| embeddings := UnitSquare.corners;
       bounds := [(0, 1); (0, 1)]%Q;
       dims := 2;
       _search := λ _ _, Raise (Foreign "index not built") |} in
  search broken (vector [1; 1]%Q) 1 () =
    (Raise (Foreign "index not built"), (), [EvSearch (vector [1; 1]%Q) 1]).
Proof.
  intros broken.
  apply (search_routine_failure broken (vector [1; 1]%Q) 1 ());
    [reflexivity | reflexivity | reflexivity | reflexivity
    | apply in_range_true_iff; reflexivity | unfold check_k; lia | reflexivity].
Defined.

(** X2. [search] does not check the indices [_search] returns: the first
    one that is not a row of [embeddings], counting negative indices from
    the end, makes the gather raise [IndexError] after the call. *)
Theorem search_index_out_of_range {S} (self : Index) (q : NDArray) (k : Z) (s : S)
    (r : InternalSearchResult) (good rest : list Z) (i : Z) :
  index_wf self → array_wf q →
  check_shape q → check_dimension self q → check_bounds self q → check_k k →
  _search self q k = Ok r →
  isr_indices r = good ++ i :: rest →
  Forall (index_in_range (embeddings self)) good →
  ¬ index_in_range (embeddings self) i →
  search self q k s =
    (Raise (index_error i (length (embeddings self))), s, [EvSearch q k]).
Proof.
  intros Hwf Hq Hs Hd Hb Hk Hr Hi Hgood Hout.
  destruct (validated_in_range self q) as [Hsh Hin]; try done.
  rewrite (search_validated self q k s (length (data q))) by done.
  by rewrite Hr, Hi, np_take_first_outside.
Qed.

Lemma search_index_out_of_range_witness :
  let stale :=
    {| embeddings := UnitSquare.corners;
       bounds := [(0, 1); (0, 1)]%Q;
       dims := 2;
       _search := λ _ _, Ok {| isr_distances := [0; 0]%Q;
                               isr_indices := [-1; 4] |} |} in
  search stale (vector [1; 1]%Q) 2 () =
    (Raise (IndexError "index 4 is out of bounds for axis 0 with size 4"), (),
     [EvSearch (vector [1; 1]%Q) 2]).
Proof.
  intros stale.
  apply (search_index_out_of_range stale (vector [1; 1]%Q) 2 ()
           {| isr_distances := [0; 0]%Q; isr_indices := [-1; 4] |} [-1] [] 4);
    [reflexivity | reflexivity | reflexivity | reflexivity
    | apply in_range_true_iff; reflexivity | unfold check_k; lia
    | reflexivity | reflexivity
    | repeat constructor; unfold index_in_range; simpl; lia
    | unfold index_in_range; simpl; lia].
Defined.

(** ** [in_range] called directly *)

Lemma py_all_map (f : Q → bool) (l : list Q) :
  py_all (map f l) = true ↔ ∀ i y, l !! i = Some y → f y = true.
Proof.
  unfold py_all. induction l as [|a l IH]; simpl.
  - split; [by intros _ [|i] | done].
  - rewrite andb_true_iff, IH. unfold id. split.
    + intros [Ha Hl] [|i] y ?; simplify_eq/=; eauto.
    + intros Hall. split; [by apply (Hall 0%nat)|].
      intros i y ?. by apply (Hall (S i)).
Qed.

Lemma np_compare_scalar (cmp : Q → Q → bool) (x : Q) (ys : list Q) :
  np_compare cmp [x] ys = Ok (map (cmp x) ys).
Proof.
  unfold np_compare. destruct (decide _) as [E|E]; [|done].
  by destruct ys as [|y [|y' ys]].
Qed.

(** X3. [in_range] does not check the length of the query: a query with
    a single coordinate is compared against the bounds of every dimension,
    and is in range exactly when it lies within all of them. *)
Theorem in_range_single_coordinate (self : Index) (x : Q) :
  (in_range self [x] = Ok true ∨ in_range self [x] = Ok false) ∧
  (in_range self [x] = Ok true ↔
   ∀ i lo hi, bounds self !! i = Some (lo, hi) → (lo <= x)%Q ∧ (x <= hi)%Q).
Proof.
  assert (E : in_range self [x] =
              Ok (py_all (map (λ y, Qle_bool y x) (lower self))
                  && py_all (map (Qle_bool x) (upper self)))).
  { unfold in_range, np_ge, np_le. rewrite !np_compare_scalar.
    by destruct (py_all _). }
  rewrite E. split; [destruct (_ && _); auto|].
  unfold lower, upper. split.
  - intros [= Hb]. apply andb_true_iff in Hb as [Hlo Hhi].
    rewrite py_all_map in Hlo, Hhi.
    intros i lo hi Hb. split; apply Qle_bool_iff.
    + apply (Hlo i lo). by rewrite lookup_map, Hb.
    + apply (Hhi i hi). by rewrite lookup_map, Hb.
  - intros Hin. f_equal. apply andb_true_iff.
    split; apply py_all_map; intros i y Hy;
      rewrite lookup_map in Hy;
      destruct (bounds self !! i) as [[lo hi]|] eqn:Hb; simplify_eq/=;
      apply Qle_bool_iff; edestruct (Hin i) as [? ?]; eauto.
Qed.

(** X4. A query whose length differs from the number of bounds, neither
    length being one, cannot be compared with them: [in_range] raises the
    broadcasting [ValueError] instead of returning false. *)
Theorem in_range_length_mismatch (self : Index) (q : list Q) :
  length q ≠ length (bounds self) →
  length q ≠ 1%nat → length (bounds self) ≠ 1%nat →
  in_range self q = Raise (broadcast_error (length q) (length (bounds self))).
Proof.
  intros Hne Hq Hb. unfold in_range, np_ge, lower, np_compare.
  rewrite length_map. rewrite decide_False by done.
  destruct q as [|x [|x' q]]; [| done |];
    by destruct (bounds self) as [|b [|b' bs]].
Qed.

Lemma in_range_length_mismatch_witness :
  in_range UnitSquare.index [1; 1; 1]%Q =
    Raise (ValueError
             "operands could not be broadcast together with shapes (3,) (2,) ").
Proof.
  apply (in_range_length_mismatch UnitSquare.index [1; 1; 1]%Q); simpl; lia.
Defined.

(** ** One call of [step] *)

Section Trials.
Context `{Ax}.
Import AxServiceOptimizer.

Lemma search_returned {S} (self : Index) (q : NDArray) (k : Z) (s s' : S)
    (res : SearchResult) (tr : list event) :
  search self q k s = (Ok res, s', tr) → s' = s ∧ tr = [EvSearch q k].
Proof.
  unfold search. eff_unfold.
  destruct (negb (ndim q =? 1)%nat); [discriminate|].
  destruct (shape_first q) as [dim|e]; [|discriminate].
  destruct (negb (Z.of_nat dim =? dims self)); [discriminate|].
  destruct (in_range self (data q)) as [[]|e]; simpl; [|discriminate..].
  destruct (k <? 1); [discriminate|].
  destruct (_search self q k) as [r|e]; [|discriminate].
  destruct (np_take _ _); simpl; [|discriminate].
  by intros [= _ <- <-].
Qed.

Lemma lookup_all_ok (parameters : gmap string Q) (names : list string)
    (coords : list Q) :
  lookup_all parameters names = Ok coords ↔
  Forall2 (λ name v, parameters !! name = Some v) names coords.
Proof.
  revert coords. induction names as [|name names IH]; intros coords; simpl.
  - split; [intros [= <-]; constructor | by inversion 1].
  - destruct (parameters !! name) as [v|] eqn:Hv.
    + destruct (lookup_all parameters names) as [vs|e] eqn:Hvs.
      * split.
        -- intros [= <-]. constructor; [done | by apply IH].
        -- inversion 1 as [|? v' ? vs' Hv' Hrest]; subst.
           apply IH in Hrest. congruence.
      * split; [discriminate|].
        inversion 1 as [|? v' ? vs' Hv' Hrest]; subst.
        apply IH in Hrest. discriminate.
    + split; [discriminate|]. inversion 1; congruence.
Qed.

Lemma lookup_all_missing (parameters : gmap string Q)
    (present rest : list string) (name : string) :
  Forall (λ n, is_Some (parameters !! n)) present →
  parameters !! name = None →
  lookup_all parameters (present ++ name :: rest) = Raise (KeyError name).
Proof.
  intros Hp Hn. induction Hp as [|n present [v Hv] _ IH]; simpl.
  - by rewrite Hn.
  - by rewrite Hv, IH.
Qed.

Lemma evaluate_index_returned {S} (q : NDArray) (index : Index)
    (f : SearchResult → pyresult Q) (s s' : S) (state : State)
    (tr : list event) :
  evaluate_index q index f s = (Ok state, s', tr) →
  s' = s ∧ candidates state = q ∧
  search index q 1 s = (Ok (result state), s, [EvSearch q 1]) ∧
  f (result state) = Ok (evaluation state) ∧
  tr = [EvSearch q 1; EvScore (result state)].
Proof.
  unfold evaluate_index, search_default. eff_unfold.
  destruct (search index q 1 s) as [[[res|e] s1] t1] eqn:Hs; [|discriminate].
  apply search_returned in Hs as [-> ->].
  destruct (f res) as [v|e] eqn:Hf; simpl; [|discriminate].
  by intros [= <- <- <-].
Qed.

(** X5. A call of [step] that returns made exactly four calls, in this
    order: it asked the client for a trial, searched the index with the
    proposed coordinates taken in the order of [parameter_name_list] and
    [k = 1], scored the search result, and completed that same trial under
    the key ["entropy"] with the score it returns.  The index and the
    scoring function of the optimizer are unchanged. *)
Theorem step_returned (self self' : t) (state : State) (tr : list event) :
  step self = (Ok state, self', tr) →
  ∃ parameters trial_index ax coords,
    get_next_trial (_ax_client self) = (Ok (parameters, trial_index), ax) ∧
    Forall2 (λ name v, parameters !! name = Some v)
      (parameter_name_list (dims (_index self))) coords ∧
    candidates state = vector coords ∧
    query (result state) = vector coords ∧
    _evaluate_fn self (result state) = Ok (evaluation state) ∧
    complete_trial ax trial_index "entropy" (evaluation state)
      = (Ok (), _ax_client self') ∧
    tr = [EvGetNextTrial; EvSearch (vector coords) 1; EvScore (result state);
          EvCompleteTrial trial_index "entropy" (evaluation state)] ∧
    _index self' = _index self ∧ _evaluate_fn self' = _evaluate_fn self.
Proof.
  rewrite step_unfold.
  destruct (RemainingSteps.step _) as [c|e]; [|discriminate]. simpl.
  destruct (get_next_trial (_ax_client self))
    as [[[parameters trial_index]|e] ax]; [|discriminate].
  unfold _evaluate at 1. eff_unfold. simpl.
  destruct (lookup_all parameters _) as [coords|e] eqn:Hc; [|discriminate].
  destruct (evaluate_index _ _ _ _) as [[[st|e] s3] t3] eqn:He; [|discriminate].
  apply evaluate_index_returned in He as (-> & Hcand & Hsearch & Hf & ->).
  simpl.
  destruct (complete_trial ax trial_index _KEY (evaluation st))
    as [[[]|e] ax'] eqn:Hdone; [|discriminate].
  intros [= <- <- <-].
  exists parameters, trial_index, ax, coords.
  split; [done|]. split; [by apply lookup_all_ok|]. split; [done|].
  split.
  { unfold search in Hsearch. revert Hsearch. eff_unfold.
    destruct (negb _); [discriminate|].
    destruct (shape_first _); [|discriminate]. simpl.
    destruct (negb _); [discriminate|].
    destruct (in_range _ _) as [[]|]; simpl; [|discriminate..].
    destruct (_search _ _ _); [|discriminate].
    destruct (np_take _ _); simpl; [|discriminate].
    by intros [= <-]. }
  done.
Qed.

End Trials.

Lemma step_returned_witness :
  ∃ state self' tr,
    @AxServiceOptimizer.step UnitSquare.ledger
      (UnitSquare.optimizer UnitSquare.nearest) = (Ok state, self', tr) ∧
    tr = [EvGetNextTrial; EvSearch (vector [1 # 10; 1 # 10]%Q) 1;
          EvScore (result state);
          EvCompleteTrial 0 "entropy" (evaluation state)] ∧
    AxServiceOptimizer._index self' = UnitSquare.index.
Proof.
  destruct (@AxServiceOptimizer.step UnitSquare.ledger
              (UnitSquare.optimizer UnitSquare.nearest))
    as [[[state|e] self'] tr] eqn:Hstep;
    [|vm_compute in Hstep; discriminate Hstep].
  destruct (@step_returned UnitSquare.ledger _ _ _ _ Hstep)
    as (parameters & trial_index & ax & coords
        & Hnext & Hcoords & _ & _ & _ & _ & Htr & Hindex & _).
  exists state, self', tr. split; [reflexivity|]. split; [|exact Hindex].
  injection Hnext as <- <- _.
  assert (coords = [1 # 10; 1 # 10]%Q) as ->; [|exact Htr].
  apply lookup_all_ok in Hcoords. vm_compute in Hcoords. by injection Hcoords.
Defined.

(** ** Calls of [step] that fail *)

Section Failures.
Context `{Ax}.
Import AxServiceOptimizer.

Lemma _evaluate_missing (parameters : gmap string Q) (self : t)
    (present rest : list string) (name : string) :
  parameter_name_list (dims (_index self)) = present ++ name :: rest →
  Forall (λ n, is_Some (parameters !! n)) present →
  parameters !! name = None →
  _evaluate parameters self = (Raise (KeyError name), self, []).
Proof.
  intros Hnames Hp Hn. unfold _evaluate. eff_unfold.
  by rewrite Hnames, (lookup_all_missing _ _ _ _ Hp Hn).
Qed.

(** X6. When the proposed point lacks one of the names of
    [parameter_name_list], [step] raises [KeyError] for the first missing
    name: nothing is searched, scored or completed, but the trial has been
    handed out and the counter advanced. *)
Theorem step_missing_parameter (self : t) (c : RemainingSteps.t)
    (parameters : gmap string Q) (trial_index : Z) (ax : AxClient)
    (present rest : list string) (name : string) :
  RemainingSteps.step (_remaining_steps self) = Ok c →
  get_next_trial (_ax_client self) = (Ok (parameters, trial_index), ax) →
  parameter_name_list (dims (_index self)) = present ++ name :: rest →
  Forall (λ n, is_Some (parameters !! n)) present →
  parameters !! name = None →
  step self =
    (Raise (KeyError name), set_ax_client ax (set_remaining_steps c self),
     [EvGetNextTrial]).
Proof.
  intros Hc Hnext Hnames Hp Hn. rewrite step_unfold, Hc. simpl. rewrite Hnext.
  by rewrite (_evaluate_missing parameters _ present rest name).
Qed.

(** X7. Whatever makes [step] fail after the counter was advanced, the
    advance is kept, the first call made was [get_next_trial], and the
    index and the scoring function are unchanged.  The trial is completed
    in one case only: when the failure is that of [complete_trial] itself,
    called last with the score. *)
Theorem step_failed (self self' : t) (c : RemainingSteps.t) (e : exn)
    (tr : list event) :
  RemainingSteps.step (_remaining_steps self) = Ok c →
  step self = (Raise e, self', tr) →
  _remaining_steps self' = c ∧
  _index self' = _index self ∧ _evaluate_fn self' = _evaluate_fn self ∧
  ∃ tr', tr = EvGetNextTrial :: tr' ∧
    ((∀ i key v, ¬ In (EvCompleteTrial i key v) tr') ∨
     (∃ before i v ax,
        tr' = before ++ [EvCompleteTrial i "entropy" v] ∧
        (∀ i' key v', ¬ In (EvCompleteTrial i' key v') before) ∧
        complete_trial ax i "entropy" v = (Raise e, _ax_client self'))).
Proof.
  intros Hc. rewrite step_unfold, Hc. simpl.
  destruct (get_next_trial (_ax_client self))
    as [[[parameters trial_index]|e0] ax].
  2:{ intros [= <- <- <-]. repeat split; try done.
      exists []. split; [done|]. left. by intros i key v []. }
  destruct (_evaluate_frame parameters
              (set_ax_client ax (set_remaining_steps c self)))
    as (r & tr0 & -> & Htr).
  assert (Hnone : ∀ i key v, ¬ In (EvCompleteTrial i key v) tr0).
  { intros i key v Hin. rewrite Forall_forall in Htr.
    apply list_elem_of_In in Hin. by apply Htr in Hin. }
  destruct r as [state|e0].
  - destruct (complete_trial _ _ _ _) as [[[]|e1] ax'] eqn:Hdone; [discriminate|].
    intros [= <- <- <-]. repeat split; try done.
    eexists. split; [done|]. right.
    by exists tr0, trial_index, (evaluation state), ax.
  - intros [= <- <- <-]. repeat split; try done.
    exists tr0. split; [done|]. by left.
Qed.

(** X8. When the client proposes a point with a coordinate outside the
    bounds of the index, [step] raises the bounds error of [search]: the
    scoring function is not called and the trial is not completed. *)
Theorem step_proposal_out_of_bounds (self : t) (c : RemainingSteps.t)
    (parameters : gmap string Q) (trial_index : Z) (ax : AxClient)
    (coords : list Q) (i : nat) :
  RemainingSteps.step (_remaining_steps self) = Ok c →
  get_next_trial (_ax_client self) = (Ok (parameters, trial_index), ax) →
  Forall2 (λ name v, parameters !! name = Some v)
    (parameter_name_list (dims (_index self))) coords →
  index_wf (_index self) → Z.of_nat (length coords) = dims (_index self) →
  violates_at (_index self) coords i →
  step self =
    (Raise bounds_error, set_ax_client ax (set_remaining_steps c self),
     [EvGetNextTrial]).
Proof.
  intros Hc Hnext Hcoords Hwf Hd Hv. rewrite step_unfold, Hc. simpl.
  rewrite Hnext. apply lookup_all_ok in Hcoords.
  unfold _evaluate. eff_unfold. simpl. rewrite Hcoords.
  unfold evaluate_index, search_default. eff_unfold.
  rewrite (search_outside (_index self) (vector coords) 1 _ (length coords));
    [done | done | done |].
  apply in_range_false_iff; [unfold index_wf in Hwf; simpl; lia|].
  by apply (violation_not_within _ coords i).
Qed.

End Failures.

Lemma step_missing_parameter_witness :
  let short : Ax :=
    {| AxClient := list (option Q);
       ax_client := λ _, [];
       ParameterConfigs := list (Q * Q);
       parameter_configs := bounds;
       parameter_name_list := λ _, ["x0"; "x1"; "x2"];
       StepConfig := GenerationStep;
       generation_step := id;
       create_experiment := λ c _ _ _, (Ok (), c);
       get_next_trial :=
         λ c, (Ok (UnitSquare.proposal, Z.of_nat (length c)), c ++ [None]);
       complete_trial := λ c i _ v, (Ok (), <[Z.to_nat i := Some v]> c);
       Kwargs := unit;
       render_with := λ _ _ c, (Ok (), c) |} in
  let self :=
    {| AxServiceOptimizer._ax_client := ([] : @AxClient short);
       AxServiceOptimizer._remaining_steps := 3;
       AxServiceOptimizer._index := UnitSquare.index;
       AxServiceOptimizer._evaluate_fn := UnitSquare.nearest |} in
  outcome (AxServiceOptimizer.step self) = Raise (KeyError "x2") ∧
  calls (AxServiceOptimizer.step self) = [EvGetNextTrial].
Proof.
  intros short self.
  rewrite (@step_missing_parameter short self 2 UnitSquare.proposal 0 [None]
             ["x0"; "x1"] [] "x2");
    [split; reflexivity | reflexivity | reflexivity | reflexivity
    | repeat constructor; vm_compute; eauto | reflexivity].
Defined.

Lemma step_failed_witness :
  let self := UnitSquare.optimizer UnitSquare.failing in
  ∃ self' tr,
    @AxServiceOptimizer.step UnitSquare.ledger self
      = (Raise (Foreign "scoring failed"), self', tr) ∧
    AxServiceOptimizer._remaining_steps self' = 2.
Proof.
  intros self.
  destruct (@AxServiceOptimizer.step UnitSquare.ledger self)
    as [[[state|e] self'] tr] eqn:Hstep;
    [vm_compute in Hstep; discriminate Hstep|].
  destruct (@step_failed UnitSquare.ledger self self' 2 e tr eq_refl Hstep)
    as (Hc & _).
  exists self', tr. split; [|exact Hc].
  vm_compute in Hstep. by injection Hstep as <- <- <-.
Defined.

Lemma step_proposal_out_of_bounds_witness :
  let narrow :=
    {| embeddings := UnitSquare.corners;
       bounds := [(1 # 2, 1); (0, 1)]%Q;
       dims := 2;
       _search := UnitSquare.flat_search UnitSquare.corners |} in
  let self :=
    {| AxServiceOptimizer._ax_client := ([] : @AxClient UnitSquare.ledger);
       AxServiceOptimizer._remaining_steps := 3;
       AxServiceOptimizer._index := narrow;
       AxServiceOptimizer._evaluate_fn := UnitSquare.nearest |} in
  AxServiceOptimizer.step self =
    (Raise bounds_error,
     @AxServiceOptimizer.set_ax_client UnitSquare.ledger [None]
       (AxServiceOptimizer.set_remaining_steps 2 self),
     [EvGetNextTrial]).
Proof.
  intros narrow self.
  apply (@step_proposal_out_of_bounds UnitSquare.ledger self 2
           UnitSquare.proposal 0 [None] [1 # 10; 1 # 10]%Q 0%nat);
    [reflexivity | reflexivity | | reflexivity | reflexivity |].
  - apply lookup_all_ok. reflexivity.
  - exists (1 # 10)%Q, (1 # 2)%Q, 1%Q.
    split; [reflexivity | split; [reflexivity | left; reflexivity]].
Defined.

(** ** The budget and the counter *)

Lemma total_trials_permutation (steps steps' : list GenerationStep) :
  Permutation steps steps' → total_trials steps = total_trials steps'.
Proof. induction 1; simpl; lia. Qed.

(** X9. The derived budget does not depend on the order of the steps. *)
Theorem terminate_step_permutation (steps steps' : list GenerationStep) :
  Permutation steps steps' →
  AxServiceOptimizer._terminate_step steps
    = AxServiceOptimizer._terminate_step steps'.
Proof.
  intros Hp. unfold AxServiceOptimizer._terminate_step.
  rewrite !fold_left_trials, (total_trials_permutation _ _ Hp).
  destruct (forallb _ (map num_trials steps)) eqn:Hs;
    destruct (forallb _ (map num_trials steps')) eqn:Hs'; try done.
  - apply all_trials_nonnegative in Hs.
    assert (Hn : Forall (λ st, 0 ≤ num_trials st) steps')
      by (by rewrite <- Hp).
    apply all_trials_nonnegative in Hn. congruence.
  - apply all_trials_nonnegative in Hs'.
    assert (Hn : Forall (λ st, 0 ≤ num_trials st) steps)
      by (by rewrite Hp).
    apply all_trials_nonnegative in Hn. congruence.
Qed.

Lemma terminate_step_permutation_witness :
  AxServiceOptimizer._terminate_step
    [{| model := "SOBOL"; num_trials := 5 |};
     {| model := "GPEI"; num_trials := -1 |}]
  = AxServiceOptimizer._terminate_step
      [{| model := "GPEI"; num_trials := -1 |};
       {| model := "SOBOL"; num_trials := 5 |}].
Proof. apply terminate_step_permutation. apply perm_swap. Defined.

(** X10. The budget is [-1] exactly when some step has a negative trial
    count, whatever that count is, and is non-negative exactly when none
    has: the sentinel cannot be produced by a sum. *)
Theorem terminate_step_sentinel (steps : list GenerationStep) :
  (AxServiceOptimizer._terminate_step steps = -1 ↔
   Exists (λ st, num_trials st < 0) steps) ∧
  (0 ≤ AxServiceOptimizer._terminate_step steps ↔
   Forall (λ st, 0 ≤ num_trials st) steps).
Proof.
  assert (Hcases : Forall (λ st, 0 ≤ num_trials st) steps ∨
                   Exists (λ st, num_trials st < 0) steps).
  { induction steps as [|st steps [IH|IH]]; [by left | |].
    - destruct (decide (0 ≤ num_trials st));
        [left; by constructor | right; constructor; lia].
    - right. by constructor 2. }
  assert (Hexcl : Forall (λ st, 0 ≤ num_trials st) steps →
                  Exists (λ st, num_trials st < 0) steps → False).
  { rewrite Forall_forall, Exists_exists. intros Hall (st & Hin & Hneg).
    specialize (Hall st Hin). lia. }
  assert (Hneg : Exists (λ st, num_trials st < 0) steps →
                 AxServiceOptimizer._terminate_step steps = -1).
  { intros Hex. unfold AxServiceOptimizer._terminate_step.
    destruct (forallb _ _) eqn:Hall; [|done].
    apply all_trials_nonnegative in Hall. by destruct Hexcl. }
  assert (Hpos : Forall (λ st, 0 ≤ num_trials st) steps →
                 0 ≤ AxServiceOptimizer._terminate_step steps).
  { intros Hall. rewrite terminate_step_sum by done.
    by apply total_trials_nonnegative. }
  split; split; try done.
  - intros Hm. destruct Hcases as [Hall|Hex]; [|done].
    apply Hpos in Hall. lia.
  - intros Hz. destruct Hcases as [Hall|Hex]; [done|].
    apply Hneg in Hex. lia.
Qed.

Section Budget.
Context `{Ax}.
Import AxServiceOptimizer.

Lemma stepped_unbounded (n : nat) (self self' : t) :
  stepped n self = Some self' → _remaining_steps self = -1 →
  _remaining_steps self' = -1.
Proof.
  revert self. induction n as [|n IH]; intros self; simpl.
  - by intros [= <-].
  - destruct (step self) as [[[v|e] s1] tr] eqn:Hstep; [|discriminate].
    intros Hn Hc. apply step_counter in Hstep. rewrite Hc in Hstep.
    injection Hstep as Hc1. by apply (IH s1).
Qed.

(** X11. An optimizer built from steps one of which has a negative trial
    count never terminates: [terminate] is false at construction and after
    any number of calls of [step] that returned, the counter staying at
    the sentinel. *)
Theorem unbounded_never_terminates (index : Index)
    (evaluate_fn : SearchResult → pyresult Q) (steps : list StepConfig)
    (minimize : bool) (opt0 : t) :
  __init__ index evaluate_fn steps minimize = Ok opt0 →
  Exists (λ st, num_trials st < 0) (map generation_step steps) →
  ∀ n opt, stepped n opt0 = Some opt →
    terminate opt = false ∧ _remaining_steps opt = -1.
Proof.
  intros Hinit Hex n opt Hrun.
  assert (H0 : _remaining_steps opt0 = -1).
  { rewrite (init_counter _ _ _ _ _ Hinit).
    unfold _terminate_step. destruct (forallb _ _) eqn:Hall; [|done].
    apply all_trials_nonnegative in Hall.
    rewrite Forall_forall in Hall. apply Exists_exists in Hex as (st & Hin & Hneg).
    specialize (Hall st Hin). lia. }
  pose proof (stepped_unbounded n opt0 opt Hrun H0) as Hc.
  split; [|exact Hc]. unfold terminate, RemainingSteps.done. by rewrite Hc.
Qed.



End Budget.

Lemma terminate_step_sentinel_witness :
  AxServiceOptimizer._terminate_step
    [{| model := "SOBOL"; num_trials := 5 |};
     {| model := "GPEI"; num_trials := -7 |}] = -1.
Proof.
  apply terminate_step_sentinel. constructor 2. constructor. simpl. lia.
Defined.

Lemma unbounded_never_terminates_witness :
  let forever := [{| model := "GPEI"; num_trials := -1 |}] in
  ∃ opt0 opt,
    @AxServiceOptimizer.__init__ UnitSquare.ledger UnitSquare.index
      UnitSquare.nearest forever true = Ok opt0 ∧
    AxServiceOptimizer.stepped 5 opt0 = Some opt ∧
    AxServiceOptimizer.terminate opt = false.
Proof.
  intros forever.
  destruct (@AxServiceOptimizer.__init__ UnitSquare.ledger UnitSquare.index
              UnitSquare.nearest forever true) as [opt0|e] eqn:Hinit;
    [|vm_compute in Hinit; discriminate Hinit].
  destruct (AxServiceOptimizer.stepped 5 opt0) as [opt|] eqn:Hrun.
  2:{ vm_compute in Hinit. injection Hinit as <-.
      vm_compute in Hrun. discriminate Hrun. }
  exists opt0, opt. split; [reflexivity | split; [exact Hrun|]].
  apply (@unbounded_never_terminates UnitSquare.ledger UnitSquare.index
           UnitSquare.nearest forever true opt0 Hinit) with (n := 5%nat);
    [constructor; simpl; lia | exact Hrun].
Defined.



(** ** [encode_storage] *)

Lemma encode_unfold {S} (self : Embedders.Embedder) (text : list string) (s : S) :
  Embedders.encode self text s =
    match Embedders._encode self text with
    | Raise e => (Raise e, s, [EvEncode text])
    | Ok enc =>
        match shape_last enc with
        | Raise e => (Raise e, s, [EvEncode text])
        | Ok dim =>
            if Z.of_nat dim =? Embedders.dims self
            then (Ok enc, s, [EvEncode text])
            else (Raise (Embedders.encode_error (Embedders.dims self) dim),
                  s, [EvEncode text])
        end
    end.
Proof.
  unfold Embedders.encode. eff_unfold.
  destruct (Embedders._encode self text) as [enc|e]; [|done]. simpl.
  destruct (shape_last enc) as [dim|e]; [|done]. simpl.
  by destruct (Z.of_nat dim =? Embedders.dims self).
Qed.

Lemma py_slice_batch {A} (l : list A) (i b : Z) :
  0 ≤ i → 1 ≤ b →
  py_slice l i (i + b) = take (Z.to_nat b) (drop (Z.to_nat i) l).
Proof.
  intros Hi Hb. unfold py_slice, clamp_index.
  replace (i <? 0) with false by (symmetry; apply Z.ltb_ge; lia).
  replace (i + b <? 0) with false by (symmetry; apply Z.ltb_ge; lia).
  set (n := Z.of_nat (length l)).
  destruct (decide (i + b ≤ n)) as [Hle|Hgt].
  - f_equal; [lia | f_equal; lia].
  - rewrite (Z.min_r (i + b) n) by lia.
    rewrite !take_ge by (rewrite length_drop; unfold n in *; lia).
    destruct (decide (i ≤ n)) as [Hin|Hin].
    + f_equal. lia.
    + rewrite !drop_ge; [done | lia | unfold n in *; lia].
Qed.

(** The offsets of [range(0, len(storage), batch)] from [i] on cut the
    rest of the storage into consecutive non-empty batches. *)
Lemma range_from_batches {A} (l : list A) (b : Z) (fuel : nat) (i : Z) :
  1 ≤ b → 0 ≤ i → Z.of_nat (length l) - i ≤ Z.of_nat fuel →
  let offsets := range_from fuel i (Z.of_nat (length l)) b in
  let batches := map (λ idx, py_slice l idx (idx + b)) offsets in
  concat batches = drop (Z.to_nat i) l ∧
  Forall (λ c, (1 ≤ length c)%nat ∧ Z.of_nat (length c) ≤ b) batches.
Proof.
  intros Hb. revert i. induction fuel as [|fuel IH]; intros i Hi Hfuel; simpl.
  - split; [|constructor]. rewrite drop_ge; [done|lia].
  - replace (0 <? b) with true by (symmetry; apply Z.ltb_lt; lia).
    destruct (i <? Z.of_nat (length l)) eqn:Hlt;
      [apply Z.ltb_lt in Hlt | apply Z.ltb_ge in Hlt]; simpl.
    + destruct (IH (i + b)) as [Hcat Hsz]; [lia | lia |].
      rewrite Hcat, py_slice_batch by lia.
      split.
      * replace (Z.to_nat (i + b)) with (Z.to_nat i + Z.to_nat b)%nat by lia.
        rewrite <- drop_drop. apply take_drop.
      * constructor; [|done].
        rewrite length_take, length_drop. lia.
    + split; [|constructor]. rewrite drop_ge; [done|lia].
Qed.

Lemma encode_batches_trace {S Row} (self : Embedders.Embedder)
    (storage : list Row) (transform : list Row → pyresult (list string))
    (offsets : list Z) (s : S) :
  ∃ r tr k,
    Embedders.encode_batches self storage transform offsets s = (r, s, tr) ∧
    (k ≤ length offsets)%nat ∧
    Forall2 (encodes_batch transform)
      (map (λ idx, py_slice storage idx (idx + Embedders.batch self))
         (take k offsets)) tr ∧
    ∀ encs, r = Ok encs →
      k = length offsets ∧
      Forall2 (encoding_of self transform)
        (map (λ idx, py_slice storage idx (idx + Embedders.batch self))
           offsets) encs.
Proof.
  induction offsets as [|idx rest IH]; simpl.
  - exists (Ok []), [], 0%nat. eff_unfold.
    split; [done|]. split; [done|]. split; [constructor|].
    intros encs [= <-]. split; [done | constructor].
  - eff_unfold.
    set (b := py_slice storage idx (idx + Embedders.batch self)).
    destruct (transform b) as [texts|e] eqn:Ht.
    2:{ exists (Raise e), [], 0%nat.
        split; [done|]. split; [lia|]. split; [constructor | done]. }
    simpl. rewrite encode_unfold.
    assert (Hev : encodes_batch transform b (EvEncode texts))
      by (by exists texts).
    assert (Hone : Forall2 (encodes_batch transform)
                     (map (λ idx, py_slice storage idx
                                    (idx + Embedders.batch self))
                        (take 1 (idx :: rest))) [EvEncode texts])
      by (simpl; by repeat constructor).
    destruct (Embedders._encode self texts) as [enc|e] eqn:He.
    2:{ exists (Raise e), [EvEncode texts], 1%nat.
        split; [done|]. split; [simpl; lia|]. split; [exact Hone | done]. }
    destruct (shape_last enc) as [dim|e] eqn:Hl.
    2:{ exists (Raise e), [EvEncode texts], 1%nat.
        split; [done|]. split; [simpl; lia|]. split; [exact Hone | done]. }
    destruct (Z.of_nat dim =? Embedders.dims self) eqn:Hd.
    2:{ eexists (Raise _), [EvEncode texts], 1%nat.
        split; [done|]. split; [simpl; lia|]. split; [exact Hone | done]. }
    apply Z.eqb_eq in Hd.
    destruct IH as (r & tr & k & -> & Hk & Htr & Hok).
    assert (Henc : encoding_of self transform b enc).
    { exists texts. split; [done|]. split; [done|]. split; [|lia].
      rewrite Hl. f_equal. lia. }
    destruct r as [encs|e].
    + exists (Ok (enc :: encs)), (EvEncode texts :: tr ++ []), (Datatypes.S k).
      split; [done|]. split; [simpl; lia|]. split.
      * rewrite app_nil_r. simpl. by constructor.
      * intros encs' [= <-]. destruct (Hok encs eq_refl) as [-> Hall].
        split; [done | by constructor].
    + exists (Raise e), (EvEncode texts :: tr), (Datatypes.S k).
      split; [done|]. split; [simpl; lia|]. split; [|done].
      simpl. by constructor.
Qed.

Lemma first_mismatch_none (d : nat) (sh sh' : list nat) :
  first_mismatch d sh sh' = None → length sh = length sh' → sh = sh'.
Proof.
  revert d sh'. induction sh as [|x sh IH]; intros d [|y sh']; simpl;
    try done.
  destruct (x =? y)%nat eqn:Hxy; [|done].
  apply Nat.eqb_eq in Hxy as ->. intros Hn [= Hlen]. f_equal. by apply (IH (S d)).
Qed.

Lemma concatenated_rows_ok (i nd : nat) (tl : list nat) (rows : nat)
    (rest : list NDArray) (total : nat) :
  concatenated_rows i nd tl rows rest = Ok total → nd = S (length tl) →
  total = (rows + total_rows rest)%nat ∧
  Forall (λ a, tail (shape a) = tl ∧ shape a ≠ []) rest.
Proof.
  intros Hc Hnd. revert i rows Hc.
  induction rest as [|a rest IH]; intros i rows; simpl.
  - intros [= <-]. split; [lia | constructor].
  - destruct (negb (ndim a =? nd)%nat) eqn:Hr; [discriminate|].
    apply negb_false_iff, Nat.eqb_eq in Hr.
    destruct (first_mismatch 1 tl (tail (shape a))) as [[[d x] y]|] eqn:Hm;
      [discriminate|].
    intros Hc. destruct (IH _ _ Hc) as [-> Hall].
    unfold ndim in Hr. destruct (shape a) as [|d0 tl'] eqn:Hs;
      [simpl in Hr; lia|].
    simpl in *. apply first_mismatch_none in Hm; [|lia].
    unfold rows_of. rewrite Hs. simpl.
    split; [lia|]. constructor; [|done]. rewrite Hs, Hm. by split.
Qed.

Lemma np_concatenate_ok (arrays : list NDArray) (res : NDArray) :
  np_concatenate arrays = Ok res →
  arrays ≠ [] ∧
  data res = concat (map data arrays) ∧
  ∃ tl, shape res = total_rows arrays :: tl ∧
        Forall (λ a, tail (shape a) = tl ∧ shape a ≠ []) arrays.
Proof.
  unfold np_concatenate. destruct arrays as [|a0 rest]; [discriminate|].
  destruct (shape a0) as [|d0 tl] eqn:Hs; [discriminate|].
  destruct (concatenated_rows _ _ _ _ _) as [rows|e] eqn:Hc; [|discriminate].
  intros [= <-]. simpl.
  apply concatenated_rows_ok in Hc as [-> Hall];
    [|unfold ndim; by rewrite Hs].
  split; [done|]. split; [done|]. exists tl.
  unfold rows_of at 1. rewrite Hs. simpl. split; [done|].
  constructor; [|done]. by rewrite Hs.
Qed.

Lemma range_no_offsets (n : nat) (b : Z) :
  b ≠ 0 → n = 0%nat ∨ b < 0 → py_range 0 (Z.of_nat n) b = Ok [].
Proof.
  intros Hb Hcase. unfold py_range. apply Z.eqb_neq in Hb. rewrite Hb.
  f_equal. destruct Hcase as [-> | Hneg]; [done|].
  destruct (Z.to_nat _); [done|]. simpl.
  replace (0 <? b) with false by (symmetry; apply Z.ltb_ge; lia).
  by replace (Z.of_nat n <? 0) with false by (symmetry; apply Z.ltb_ge; lia).
Qed.

(** X14. [encode_storage] encodes nothing when there is nothing to
    iterate over.  A batch size of zero is refused by [range]; an empty
    storage, or a negative batch size, yields no batch and
    [np.concatenate] refuses the empty list. *)
Theorem encode_storage_nothing {S Row} (self : Embedders.Embedder)
    (storage : list Row) (transform : list Row → pyresult (list string))
    (s : S) :
  (Embedders.batch self = 0 →
     Embedders.encode_storage self storage transform s =
       (Raise (ValueError "range() arg 3 must not be zero"), s, [])) ∧
  (Embedders.batch self ≠ 0 →
   storage = [] ∨ Embedders.batch self < 0 →
     Embedders.encode_storage self storage transform s =
       (Raise (ValueError "need at least one array to concatenate"), s, [])).
Proof.
  unfold Embedders.encode_storage. eff_unfold. split.
  - intros Hz. unfold py_range. by rewrite Hz.
  - intros Hb Hcase. rewrite range_no_offsets; [done | done |].
    destruct Hcase as [-> | Hneg]; [by left | by right].
Qed.

Lemma encode_storage_run {S Row} (self : Embedders.Embedder)
    (storage : list Row) (transform : list Row → pyresult (list string))
    (s : S) :
  1 ≤ Embedders.batch self →
  ∃ (batches : list (list Row)) r tr k,
    concat batches = storage ∧
    Forall (λ c, (1 ≤ length c)%nat ∧
                 Z.of_nat (length c) ≤ Embedders.batch self) batches ∧
    Forall2 (encodes_batch transform) (take k batches) tr ∧
    (∀ encs, r = Ok encs →
       k = length batches ∧
       Forall2 (encoding_of self transform) batches encs) ∧
    Embedders.encode_storage self storage transform s =
      match r with
      | Ok encs => (np_concatenate encs, s, tr)
      | Raise e => (Raise e, s, tr)
      end.
Proof.
  intros Hb.
  set (offsets := range_from
                    (Z.to_nat (Z.abs (Z.of_nat (length storage) - 0))) 0
                    (Z.of_nat (length storage)) (Embedders.batch self)).
  set (slice := λ idx, py_slice storage idx (idx + Embedders.batch self)).
  destruct (range_from_batches storage (Embedders.batch self)
              (Z.to_nat (Z.abs (Z.of_nat (length storage) - 0))) 0)
    as [Hcat Hsz]; [lia | lia | lia |].
  fold offsets in Hcat, Hsz. fold slice in Hcat, Hsz.
  destruct (encode_batches_trace self storage transform offsets s)
    as (r & tr & k & Hrun & Hk & Htr & Hok).
  exists (map slice offsets), r, tr, k.
  split; [exact Hcat|]. split; [exact Hsz|].
  split; [by rewrite firstn_map|].
  split.
  { intros encs Hr. destruct (Hok encs Hr) as [-> Hall].
    split; [by rewrite length_map | done]. }
  unfold Embedders.encode_storage, py_range. eff_unfold.
  replace (Embedders.batch self =? 0) with false
    by (symmetry; apply Z.eqb_neq; lia).
  fold offsets. rewrite Hrun. destruct r; [|done].
  by rewrite !app_nil_r.
Qed.



Lemma encode_storage_nothing_witness :
  Embedders.encode_storage
    {| Embedders.batch := -8; Embedders.dims := 2;
       Embedders._encode := λ _, Ok (vector [0; 0]%Q) |}
    ["a"; "b"] Ok () =
  (Raise (ValueError "need at least one array to concatenate"), (), []).
Proof.
  apply (encode_storage_nothing
           {| Embedders.batch := -8; Embedders.dims := 2;
              Embedders._encode := λ _, Ok (vector [0; 0]%Q) |}
           ["a"; "b"] Ok ()); [simpl; lia | right; simpl; lia].
Defined.

(** X16. When [encode_storage] returns, the batch size was at least one
    and the storage not empty; every batch of the storage was encoded to
    an array whose last axis is [dims]; and the result is these arrays
    stacked along the first axis: its entries are theirs in batch order,
    its first extent is the sum of theirs, and they all share the rest of
    its shape. *)
Theorem encode_storage_returned {S Row} (self : Embedders.Embedder)
    (storage : list Row) (transform : list Row → pyresult (list string))
    (s : S) (res : NDArray) :
  outcome (Embedders.encode_storage self storage transform s) = Ok res →
  1 ≤ Embedders.batch self ∧ storage ≠ [] ∧
  ∃ (batches : list (list Row)) (encs : list NDArray),
    concat batches = storage ∧
    Forall2 (encoding_of self transform) batches encs ∧
    data res = concat (map data encs) ∧
    ∃ tl, shape res = total_rows encs :: tl ∧
          Forall (λ enc, tail (shape enc) = tl ∧ shape enc ≠ []) encs.
Proof.
  intros Hres.
  assert (Hn : Embedders.batch self ≠ 0 →
               storage = [] ∨ Embedders.batch self < 0 →
               outcome (Embedders.encode_storage self storage transform s)
                 = Raise (ValueError "need at least one array to concatenate")).
  { intros Hb0 Hcase. unfold Embedders.encode_storage. eff_unfold.
    rewrite range_no_offsets; [done | done |].
    destruct Hcase as [-> | Hneg]; [by left | by right]. }
  assert (Hb : 1 ≤ Embedders.batch self).
  { destruct (decide (Embedders.batch self = 0)) as [E|E].
    { revert Hres. unfold Embedders.encode_storage, py_range. eff_unfold.
      by rewrite E. }
    destruct (decide (Embedders.batch self < 0)) as [E'|E']; [|lia].
    rewrite Hn in Hres by auto. discriminate Hres. }
  assert (Hs : storage ≠ []).
  { intros ->. rewrite Hn in Hres by (auto || lia). discriminate Hres. }
  split; [exact Hb|]. split; [exact Hs|].
  destruct (encode_storage_run self storage transform s Hb)
    as (batches & r & tr & k & Hcat & _ & _ & Hok & E).
  rewrite E in Hres. destruct r as [encs|e]; [|discriminate].
  destruct (Hok encs eq_refl) as [_ Hall].
  unfold outcome in Hres; simpl in Hres.
  apply np_concatenate_ok in Hres as (_ & Hdata & tl & Hshape & Htl).
  exists batches, encs. split; [exact Hcat|]. split; [exact Hall|].
  split; [exact Hdata|]. by exists tl.
Qed.

Lemma encode_storage_returned_witness :
  ∃ res,
    outcome (Embedders.encode_storage
               {| Embedders.batch := 2; Embedders.dims := 2;
                  Embedders._encode :=
                    λ ts, Ok (mkArray [length ts; 2%nat]
                                (replicate (2 * length ts) 0%Q)) |}
               ["a"; "b"; "c"; "d"; "e"] Ok ()) = Ok res ∧
    shape res = [5; 2]%nat.
Proof.
  eexists. split; [reflexivity|].
  destruct (encode_storage_returned
              {| Embedders.batch := 2; Embedders.dims := 2;
                 Embedders._encode :=
                   λ ts, Ok (mkArray [length ts; 2%nat]
                               (replicate (2 * length ts) 0%Q)) |}
              ["a"; "b"; "c"; "d"; "e"] Ok () _ eq_refl) as (_ & _ & _).
  reflexivity.
Defined.

(** ** [HuggingfaceEmbedder] *)

(** X17. A [HuggingfaceEmbedder] declares two dimensions whatever model it
    wraps.  Its [encode] returns the transformed output of the model when
    the last axis of that output has extent two and raises the dimension
    [ValueError] for any other extent; a failure of the tokenizer or of
    the model is raised before [transform] is applied. *)
Theorem huggingface_two_dimensions {S Output} (self : HuggingfaceEmbedder.t Output)
    (texts : list string) (s : S) :
  let embedder := HuggingfaceEmbedder.embedder self in
  Embedders.dims embedder = 2 ∧
  Embedders.batch embedder = HuggingfaceEmbedder._batch_size self ∧
  (∀ e, HuggingfaceEmbedder._forward self texts = Raise e →
     Embedders.encode embedder texts s = (Raise e, s, [EvEncode texts])) ∧
  (∀ output encoded pre d,
     HuggingfaceEmbedder._forward self texts = Ok output →
     HuggingfaceEmbedder._transform self output = Ok encoded →
     shape encoded = pre ++ [d] →
     Embedders.encode embedder texts s =
       if decide (d = 2%nat) then (Ok encoded, s, [EvEncode texts])
       else (Raise (ValueError
                      ("Expected the encoded embeddings to have dimension 2, got "
                       +:+ pretty d)), s, [EvEncode texts])).
Proof.
  intros embedder. split; [done|]. split; [done|]. split.
  - intros e He. rewrite encode_unfold. simpl.
    unfold HuggingfaceEmbedder._encode. by rewrite He.
  - intros output encoded pre d Hf Ht Hs. rewrite encode_unfold. simpl.
    unfold HuggingfaceEmbedder._encode, shape_last.
    rewrite Hf, Ht, Hs, last_snoc.
    unfold HuggingfaceEmbedder.dims, Embedders.encode_error.
    destruct (decide (d = 2%nat)) as [->|Hd]; [done|].
    by replace (Z.of_nat d =? 2) with false
      by (symmetry; apply Z.eqb_neq; lia).
Qed.
